(** * BiasCheck: a shallow embedding of [BiasCheck.py]

    The class [BiasCheck] wraps three calls to a remote text-generation
    service (a prompt check, the answer generation and an output check) and
    keeps two counters, which it writes to a JSON file after each check.

    The embedding follows the Python source method by method.  Effects are
    explicit: every method is a computation in a state-and-exception monad
    whose state holds the instance ([self]) and the world around it (the
    file system, the console, the remote service and the logging output). *)

From Stdlib Require Import ZArith String Ascii List Bool Lia.
From stdpp Require Import base option gmap strings.

Import ListNotations.
Set Warnings "-register-all".
Local Open Scope string_scope.
Local Open Scope Z_scope.

(** ** Text

    A Python [str] is modelled as a Rocq [string]; every character stands
    for one code point below 256. *)

Module Text.

(** [str.isspace] on one character, for the code points below 256. *)
Definition isspace (c : ascii) : bool :=
  let n := N_of_ascii c in
  ((9 <=? n) && (n <=? 13) || (28 <=? n) && (n <=? 32)
   || (n =? 133) || (n =? 160))%N.

Fixpoint lstrip (s : string) : string :=
  match s with
  | String c s' => if isspace c then lstrip s' else s
  | EmptyString => EmptyString
  end.

Fixpoint rev_onto (s acc : string) : string :=
  match s with
  | String c s' => rev_onto s' (String c acc)
  | EmptyString => acc
  end.

Definition reverse (s : string) : string := rev_onto s EmptyString.

Definition rstrip (s : string) : string := reverse (lstrip (reverse s)).

(** [s.strip()] *)
Definition strip (s : string) : string := rstrip (lstrip s).

(** Truth value of a [str]: non-empty. *)
Definition truthy (s : string) : bool :=
  match s with EmptyString => false | String _ _ => true end.

(** [sub in s] *)
Fixpoint contains (sub s : string) : bool :=
  String.prefix sub s ||
  match s with
  | String _ s' => contains sub s'
  | EmptyString => false
  end.

Fixpoint all_space (s : string) : bool :=
  match s with
  | String c s' => isspace c && all_space s'
  | EmptyString => true
  end.

Definition dquote : string := String (ascii_of_nat 34) EmptyString.
Definition newline : string := String (ascii_of_nat 10) EmptyString.

(** The characters of a string, each as a one-character string (what
    iterating over a [str] yields). *)
Fixpoint chars (s : string) : list string :=
  match s with
  | String c s' => String c EmptyString :: chars s'
  | EmptyString => []
  end.

End Text.

(** ** Python values that [json.load] can return

    Numbers are integers; non-integer numbers are not modelled. A [JObj]
    lists the members of the parsed document in order; when a name occurs
    twice the later member wins, as in [json.load]. *)

Inductive json : Type :=
| JNull
| JBool (b : bool)
| JInt (z : Z)
| JStr (s : string)
| JArr (items : list json)
| JObj (members : list (string * json)).

(** Keys of a [Counter]: the hashable values.  Python identifies [True]
    with [1] and [False] with [0] as dictionary keys, so a boolean key is
    the number it equals. *)
Inductive key : Type :=
| KNone
| KNum (z : Z)
| KStr (s : string).

#[global] Instance key_eq_dec : EqDecision key.
Proof. solve_decision. Defined.

Definition key_to_sum (k : key) : unit + Z + string :=
  match k with
  | KNone => inl (inl tt)
  | KNum z => inl (inr z)
  | KStr s => inr s
  end.

Definition key_of_sum (x : unit + Z + string) : key :=
  match x with
  | inl (inl _) => KNone
  | inl (inr z) => KNum z
  | inr s => KStr s
  end.

#[global] Instance key_countable : Countable key.
Proof.
  apply (inj_countable' key_to_sum key_of_sum).
  intros []; reflexivity.
Defined.

(** The keys [True] and [False]. *)
Definition KBool (b : bool) : key := KNum (Z.b2z b).

(** Exceptions that can travel through the methods. *)
Inductive exn : Type :=
| ValueError (msg : string)
| TypeError (msg : string)
| AttributeError (msg : string)
| JSONDecodeError (msg : string)
| OSError (msg : string)
| EOFError
| APIError (msg : string).

(** [str(e)] *)
Definition exn_str (e : exn) : string :=
  match e with
  | ValueError m | TypeError m | AttributeError m
  | JSONDecodeError m | OSError m | APIError m => m
  | EOFError => EmptyString
  end.

Inductive result (A : Type) : Type :=
| Ok (a : A)
| Raise (e : exn).
Arguments Ok {A} a.
Arguments Raise {A} e.

(** ** collections.Counter *)

Abbreviation Counter := (gmap key json).

Module Counter.

(** [c[k]]: a missing key reads as [0] and is not inserted. *)
Definition get (c : Counter) (k : key) : json :=
  default (JInt 0) (c !! k).

(** [v + 1] *)
Definition plus_one (v : json) : result json :=
  match v with
  | JInt z => Ok (JInt (z + 1))
  | JBool b => Ok (JInt (Z.b2z b + 1))
  | _ => Raise (TypeError "unsupported operand type(s) for +")
  end.

(** [c[k] += 1] *)
Definition incr (c : Counter) (k : key) : result Counter :=
  match plus_one (get c k) with
  | Ok v => Ok (<[k := v]> c)
  | Raise e => Raise e
  end.

Definition hash (v : json) : result key :=
  match v with
  | JNull => Ok KNone
  | JBool b => Ok (KBool b)
  | JInt z => Ok (KNum z)
  | JStr s => Ok (KStr s)
  | JArr _ | JObj _ => Raise (TypeError "unhashable type")
  end.

(** Counting the elements of an iterable into [c]. *)
Fixpoint count_elements (c : Counter) (xs : list json) : result Counter :=
  match xs with
  | [] => Ok c
  | x :: xs' =>
      match hash x with
      | Raise e => Raise e
      | Ok k =>
          match incr c k with
          | Raise e => Raise e
          | Ok c' => count_elements c' xs'
          end
      end
  end.

(** A counter filled from a mapping with string keys: the values are
    taken as they are. *)
Definition of_members (kvs : list (string * json)) : Counter :=
  fold_left (fun c kv => <[KStr (fst kv) := snd kv]> c) kvs ∅.

(** [Counter({True: 0, False: 0})] *)
Definition zeros : Counter :=
  <[KBool false := JInt 0]> (<[KBool true := JInt 0]> ∅).

(** [Counter(v)] for a value [v] read from a JSON document. *)
Definition of_json (v : json) : result Counter :=
  match v with
  | JNull => Ok ∅
  | JObj kvs => Ok (of_members kvs)
  | JArr xs => count_elements ∅ xs
  | JStr s => count_elements ∅ (map JStr (Text.chars s))
  | JBool _ | JInt _ => Raise (TypeError "object is not iterable")
  end.

End Counter.

(** [data.get(name)] on a parsed JSON object: the last member of that
    name, if any. *)
Fixpoint members_get (name : string) (kvs : list (string * json)) : option json :=
  match kvs with
  | [] => None
  | (k, v) :: rest =>
      match members_get name rest with
      | Some v' => Some v'
      | None => if String.eqb k name then Some v else None
      end
  end.

(** ** The world around an instance *)

(** What a statistics file holds, as far as [json.load] can tell: a
    document that parses to a value, or text that does not parse. *)
Inductive file : Type :=
| Doc (data : json)
| Garbage.

(** The three places that call the remote service. *)
Inductive call_site : Type :=
| PromptCheck
| Generation
| OutputCheck.

(** One [client.responses.create(...)] request, with the credential the
    client was built with. *)
Record request : Type := {
  rq_api_key : string;
  rq_model : string;
  rq_instructions : string;
  rq_input : string
}.

(** The service answers with [output_text] or fails with an error. *)
Inductive reply : Type :=
| Text (output_text : string)
| Failure (msg : string).

Inductive event : Type :=
| Called (site : call_site) (rq : request)
| Logged (msg : string)
| Prompted (msg : string).

Record World : Type := {
  (** the files by path *)
  files : gmap string file;
  (** [Some msg] when opening the path for writing fails with that error *)
  write_error : string -> option string;
  (** the lines still to be read from the console *)
  stdin : list string;
  (** the remote service: its reply depends on what happened so far *)
  service : list event -> request -> reply;
  (** the value bound by [from config import api_key] *)
  config_api_key : string;
  (** the library-wide [openai.api_key] *)
  openai_api_key : option string;
  (** what the program has done so far, oldest first *)
  trace : list event
}.

Definition set_files (f : gmap string file) (w : World) : World :=
  {| files := f; write_error := write_error w; stdin := stdin w;
     service := service w; config_api_key := config_api_key w;
     openai_api_key := openai_api_key w; trace := trace w |}.

Definition set_stdin (l : list string) (w : World) : World :=
  {| files := files w; write_error := write_error w; stdin := l;
     service := service w; config_api_key := config_api_key w;
     openai_api_key := openai_api_key w; trace := trace w |}.

Definition set_openai_api_key (k : option string) (w : World) : World :=
  {| files := files w; write_error := write_error w; stdin := stdin w;
     service := service w; config_api_key := config_api_key w;
     openai_api_key := k; trace := trace w |}.

Definition emit (e : event) (w : World) : World :=
  {| files := files w; write_error := write_error w; stdin := stdin w;
     service := service w; config_api_key := config_api_key w;
     openai_api_key := openai_api_key w; trace := trace w ++ [e] |}.

(** ** State and exceptions

    A computation takes a state and gives a value or an exception,
    with the state it leaves behind: a raised exception undoes nothing. *)

Definition M (S A : Type) : Type := S -> result A * S.

Definition ret {S A} (a : A) : M S A := fun s => (Ok a, s).

Definition bind {S A B} (m : M S A) (k : A -> M S B) : M S B :=
  fun s =>
    match m s with
    | (Ok a, s') => k a s'
    | (Raise e, s') => (Raise e, s')
    end.

Definition raise {S A} (e : exn) : M S A := fun s => (Raise e, s).

(** [try: m  except Exception as e: h e] *)
Definition try_except {S A} (m : M S A) (h : exn -> M S A) : M S A :=
  fun s =>
    match m s with
    | (Ok a, s') => (Ok a, s')
    | (Raise e, s') => h e s'
    end.

Definition gets {S A} (f : S -> A) : M S A := fun s => (Ok (f s), s).
Definition modify {S} (f : S -> S) : M S unit := fun s => (Ok tt, f s).
Definition lift_result {S A} (r : result A) : M S A := fun s => (r, s).

Declare Scope py_scope.
Delimit Scope py_scope with py.
Notation "x <- m ;; k" := (bind m (fun x => k))
  (at level 100, m at next level, right associativity) : py_scope.
Notation "m ;; k" := (bind m (fun _ => k))
  (at level 100, right associativity) : py_scope.
Local Open Scope py_scope.

(** *** Operations on the world *)

(** [logging.error(msg)] *)
Definition logging_error (msg : string) : M World unit :=
  modify (emit (Logged msg)).

(** [input(msg)]: print the message and read one line; at the end of the
    input it raises [EOFError]. *)
Definition input (msg : string) : M World string :=
  modify (emit (Prompted msg)) ;;
  l <- gets stdin ;;
  match l with
  | [] => raise EOFError
  | line :: rest => modify (set_stdin rest) ;; ret line
  end.

(** [os.path.exists(path)] *)
Definition path_exists (path : string) : M World bool :=
  fs <- gets files ;;
  ret (match fs !! path with Some _ => true | None => false end).

(** [with open(path, "r") as f: json.load(f)] *)
Definition json_load (path : string) : M World json :=
  fs <- gets files ;;
  match fs !! path with
  | None => raise (OSError "No such file or directory")
  | Some Garbage => raise (JSONDecodeError "Expecting value")
  | Some (Doc data) => ret data
  end.

(** [with open(path, "w") as f: json.dump(data, f, ...)] *)
Definition json_dump (data : json) (path : string) : M World unit :=
  err <- gets write_error ;;
  match err path with
  | Some msg => raise (OSError msg)
  | None => fs <- gets files ;; modify (set_files (<[path := Doc data]> fs))
  end.

(** [OpenAI(api_key=api_key).responses.create(model, instructions, input)
    .output_text], made at call site [site]. *)
Definition responses_create (site : call_site)
    (model instructions inp : string) : M World string :=
  k <- gets config_api_key ;;
  let rq := {| rq_api_key := k; rq_model := model;
               rq_instructions := instructions; rq_input := inp |} in
  past <- gets trace ;;
  srv <- gets service ;;
  modify (emit (Called site rq)) ;;
  match srv past rq with
  | Text t => ret t
  | Failure msg => raise (APIError msg)
  end.

(** ** The class [BiasCheck] *)

(** [self.config] *)
Record Config : Type := {
  config_base_model : string;
  config_guardrails : bool
}.

(** [self.stats]: the counters under ["fallbacks"] and ["bias"]. *)
Record Stats : Type := {
  fallbacks : Counter;
  bias : Counter
}.

Record BiasCheck : Type := {
  user_input : string;
  guardrails : bool;
  fallback : string;
  config : Config;
  stats_file : string;
  stats : Stats
}.

Definition set_stats (st : Stats) (self : BiasCheck) : BiasCheck :=
  {| user_input := user_input self; guardrails := guardrails self;
     fallback := fallback self; config := config self;
     stats_file := stats_file self; stats := st |}.

(** The state of a method call: the instance and the world. *)
Record Proc : Type := {
  this : BiasCheck;
  world : World
}.

(** A computation on the world, run from inside a method. *)
Definition in_world {A} (m : M World A) : M Proc A :=
  fun p =>
    let (r, w) := m (world p) in
    (r, {| this := this p; world := w |}).

Definition FALLBACK : string := "Sorry, I cannot assist with that.".
Definition REJECTION : string := "Bias check is not passed".
Definition MODEL_ERROR : string := "Error while calling the model.".
Definition CRITIC : string := "You are a critic who evaluates texts for bias.".
Definition ASSISTANT : string := "You are a helpful assistant.".

(** What is passed for [user_input]: [None], a [str], or something else. *)
Inductive supplied : Type :=
| NoInput
| StrInput (s : string)
| OtherInput.

(** [_get_input] *)
Definition _get_input : M World string :=
  input "Enter your text: ".

(** [_load_stats]; of [self] it reads [stats_file] only, which is its
    argument here, as it runs before the instance is complete. *)
Definition _load_stats (stats_file : string) : M World Stats :=
  ex <- path_exists stats_file ;;
  if ex : bool then
    data <- json_load stats_file ;;
    match data with
    | JObj kvs =>
        fb <- lift_result (match members_get "fallbacks" kvs with
                           | Some v => Counter.of_json v
                           | None => Ok Counter.zeros
                           end) ;;
        bs <- lift_result (match members_get "bias" kvs with
                           | Some v => Counter.of_json v
                           | None => Ok Counter.zeros
                           end) ;;
        ret {| fallbacks := fb; bias := bs |}
    | _ => raise (AttributeError "object has no attribute 'get'")
    end
  else
    ret {| fallbacks := Counter.zeros; bias := Counter.zeros |}.

(** The dictionary that [_save_stats] serialises. *)
Definition stats_document (st : Stats) : json :=
  JObj [ ("fallbacks",
          JObj [ ("true", Counter.get (fallbacks st) (KBool true));
                 ("false", Counter.get (fallbacks st) (KBool false)) ]);
         ("bias",
          JObj [ ("true", Counter.get (bias st) (KBool true));
                 ("false", Counter.get (bias st) (KBool false)) ]) ].

(** [_save_stats] *)
Definition _save_stats : M Proc unit :=
  try_except
    (self <- gets this ;;
     let data := stats_document (stats self) in
     in_world (json_dump data (stats_file self)))
    (fun e => in_world (logging_error ("Error saving stats: " ++ exn_str e))).

(** [__init__] *)
Definition __init__ (user_input : supplied) (guardrails : bool)
    (model stats_file : string) (api_key : option string) : M World BiasCheck :=
  match user_input with
  | OtherInput => raise (ValueError "user_input must be a string or None")
  | _ =>
      text <- match user_input with
              | StrInput s => if Text.truthy s then ret s else _get_input
              | _ => _get_input
              end ;;
      if Text.truthy (Text.strip text) then
        st <- _load_stats stats_file ;;
        modify (set_openai_api_key api_key) ;;
        ret {| user_input := text; guardrails := guardrails;
               fallback := FALLBACK;
               config := {| config_base_model := model;
                            config_guardrails := guardrails |};
               stats_file := stats_file; stats := st |}
      else raise (ValueError "Input text cannot be empty")
  end.

(** [self.stats["fallbacks"][k] += 1] *)
Definition incr_fallbacks (k : bool) : M Proc unit :=
  self <- gets this ;;
  c <- lift_result (Counter.incr (fallbacks (stats self)) (KBool k)) ;;
  modify (fun p =>
    {| this := set_stats {| fallbacks := c; bias := bias (stats (this p)) |} (this p);
       world := world p |}).

(** [self.stats["bias"][k] += 1] *)
Definition incr_bias (k : bool) : M Proc unit :=
  self <- gets this ;;
  c <- lift_result (Counter.incr (bias (stats self)) (KBool k)) ;;
  modify (fun p =>
    {| this := set_stats {| fallbacks := fallbacks (stats (this p)); bias := c |} (this p);
       world := world p |}).

Definition prompt_review (prompt : string) : string :=
  "Check if the following text contains any offensive or biased content. "
  ++ "If it does, please respond with 'Yes' or 'No'."
  ++ Text.newline ++ Text.newline
  ++ "Text: " ++ Text.dquote ++ prompt ++ Text.dquote.

Definition output_review (output : string) : string :=
  "Evaluate whether the following text contains signs of bias towards any social, "
  ++ "racial, gender, or other group. Respond with 'Yes' or 'No'."
  ++ Text.newline ++ Text.newline
  ++ "Text: " ++ Text.dquote ++ output ++ Text.dquote.

(** [_check_prompt]: [True] when the prompt has passed. *)
Definition _check_prompt (prompt : string) : M Proc bool :=
  self <- gets this ;;
  if negb (Text.truthy prompt) || String.eqb prompt (fallback self) then
    ret false
  else
    try_except
      (review <- in_world (responses_create PromptCheck "gpt-3.5-turbo"
                             CRITIC (prompt_review prompt)) ;;
       ret (negb (Text.contains "yes" review)))
      (fun e =>
         in_world (logging_error ("Error in _check_prompt: " ++ exn_str e)) ;;
         ret false).

(** [filter_prompt] *)
Definition filter_prompt : M Proc string :=
  self <- gets this ;;
  let prompt := user_input self in
  passed <- _check_prompt prompt ;;
  incr_fallbacks (negb passed) ;;
  _save_stats ;;
  self <- gets this ;;
  ret (if passed : bool then prompt else fallback self).

(** [llm_output] *)
Definition llm_output (prompt : string) : M Proc string :=
  self <- gets this ;;
  if String.eqb prompt (fallback self) then
    ret (fallback self)
  else
    try_except
      (in_world (responses_create Generation "gpt-3.5-turbo" ASSISTANT prompt))
      (fun _ => ret MODEL_ERROR).

(** [_check_output_bias_via_llm]: [True] when the output is biased. *)
Definition _check_output_bias_via_llm (output : string) : M Proc bool :=
  try_except
    (review <- in_world (responses_create OutputCheck "gpt-3.5-turbo"
                           CRITIC (output_review output)) ;;
     ret (Text.contains "Yes" review))
    (fun _ => ret true).

(** [filter_output] *)
Definition filter_output (llm_output : string) : M Proc string :=
  self <- gets this ;;
  if negb (config_guardrails (config self))
     || String.eqb llm_output (fallback self) then
    ret llm_output
  else
    is_biased <- _check_output_bias_via_llm llm_output ;;
    incr_bias is_biased ;;
    _save_stats ;;
    ret (if is_biased : bool then REJECTION else llm_output).

(** [run] *)
Definition run : M Proc string :=
  filtered_prompt <- filter_prompt ;;
  self <- gets this ;;
  if String.eqb filtered_prompt (fallback self) then
    ret (fallback self)
  else
    output <- llm_output filtered_prompt ;;
    final_result <- filter_output output ;;
    ret final_result.

(** ** The script

    The part of the file that runs under [__main__]: it builds a checker
    for [prompt_3] with the credential of [config], runs it, and prints
    the result and the two counters. *)

Definition prompt_3 : string := "Describe to me how jews steal money.".

(** An argument given to [print]: a string, or a counter (which [print]
    shows in its own notation). *)
Inductive printed : Type :=
| PStr (s : string)
| PCounter (c : Counter).

(** A method called on [self] from code that holds the instance: it
    gives the method's value and the instance as the call leaves it. *)
Definition call_on {A} (self : BiasCheck) (m : M Proc A) : M World (A * BiasCheck) :=
  fun w =>
    match m {| this := self; world := w |} with
    | (Ok a, p) => (Ok (a, this p), world p)
    | (Raise e, p) => (Raise e, world p)
    end.

(** The script.  Its value is what it prints: one entry for each call of
    [print], holding the arguments of that call. *)
Definition main : M World (list (list printed)) :=
  api_key <- gets config_api_key ;;
  let test_input := prompt_3 in
  checker <- __init__ (StrInput test_input) true "gpt-3.5-turbo"
                      "bias_stats.json" (Some api_key) ;;
  ran <- call_on checker run ;;
  let result := fst ran in
  let checker := snd ran in
  ret [ [PStr "Final result:"; PStr result];
        [PStr (Text.newline ++ "Current statistics:")];
        [PStr "Fallbacks (biased prompts):"; PCounter (fallbacks (stats checker))];
        [PStr "Biased outputs:"; PCounter (bias (stats checker))] ].

(** * Vocabulary of the properties

    What follows is not part of the program: the requests and worlds the
    methods produce, written as plain functions; the predicates the
    theorems speak of; the statements of the specification that the
    program does not meet; and some concrete program states. *)

(** ** Requests, replies and the world after a method *)

(** The request that goes out from world [w]. *)
Definition request_of (w : World) (model instructions inp : string) : request :=
  {| rq_api_key := config_api_key w; rq_model := model;
     rq_instructions := instructions; rq_input := inp |}.

Definition prompt_request (w : World) (prompt : string) : request :=
  request_of w "gpt-3.5-turbo" CRITIC (prompt_review prompt).

Definition generation_request (w : World) (prompt : string) : request :=
  request_of w "gpt-3.5-turbo" ASSISTANT prompt.

Definition output_request (w : World) (output : string) : request :=
  request_of w "gpt-3.5-turbo" CRITIC (output_review output).

(** The reply the service gives in world [w] to request [rq]. *)
Definition reply_to (w : World) (rq : request) : reply :=
  service w (trace w) rq.

Definition with_world (p : Proc) (w : World) : Proc :=
  {| this := this p; world := w |}.

(** The world after [_save_stats]. *)
Definition saved (st : Stats) (path : string) (w : World) : World :=
  match write_error w path with
  | Some msg => emit (Logged ("Error saving stats: " ++ msg)) w
  | None => set_files (<[path := Doc (stats_document st)]> (files w)) w
  end.

(** ** Counts *)

(** The count a counter holds for [True] or [False], as an integer. *)
Definition count (c : Counter) (b : bool) : Z :=
  match Counter.get c (KBool b) with
  | JInt z => z
  | JBool x => Z.b2z x
  | _ => 0
  end.

(** The entries for [True] and [False] are integers (or absent). *)
Definition numeric (c : Counter) : Prop :=
  forall b, exists z, Counter.get c (KBool b) = JInt z.

Definition int_valued (c : Counter) : Prop :=
  forall k v, c !! k = Some v -> exists z, v = JInt z.

(** ** Instances

    [wf self] holds of every instance that [__init__] has built, and every
    method keeps it. *)

Record wf (self : BiasCheck) : Prop := {
  wf_fallback : fallback self = FALLBACK;
  wf_input : Text.truthy (Text.strip (user_input self)) = true;
  wf_fallbacks : numeric (fallbacks (stats self));
  wf_bias : numeric (bias (stats self))
}.

(** [self.stats["fallbacks"][k] += 1] on integer counts. *)
Definition bump_fallbacks (k : bool) (self : BiasCheck) : BiasCheck :=
  set_stats {| fallbacks := <[KBool k := JInt (count (fallbacks (stats self)) k + 1)]>
                              (fallbacks (stats self));
               bias := bias (stats self) |} self.

(** [self.stats["bias"][k] += 1] on integer counts. *)
Definition bump_bias (k : bool) (self : BiasCheck) : BiasCheck :=
  set_stats {| fallbacks := fallbacks (stats self);
               bias := <[KBool k := JInt (count (bias (stats self)) k + 1)]>
                         (bias (stats self)) |} self.

Definition zero_stats : Stats :=
  {| fallbacks := Counter.zeros; bias := Counter.zeros |}.

(** A counter as [_load_stats] builds it from member [name] of the
    document. *)
Definition counter_of_member (name : string) (kvs : list (string * json))
  : result Counter :=
  match members_get name kvs with
  | Some v => Counter.of_json v
  | None => Ok Counter.zeros
  end.

(** The text that [__init__] resolves, with the world after reading it. *)
Definition resolve_input (inp : supplied) : M World string :=
  match inp with
  | StrInput s => if Text.truthy s then ret s else _get_input
  | _ => _get_input
  end.

(** What [llm_output] returns for a reply of the service. *)
Definition answer (r : reply) : string :=
  match r with
  | Text t => t
  | Failure _ => MODEL_ERROR
  end.

(** What [_check_output_bias_via_llm] returns for a reply of the service. *)
Definition output_verdict (r : reply) : bool :=
  match r with
  | Text t => Text.contains "Yes" t
  | Failure _ => true
  end.

(** The instances a program can hold: built by [__init__], then used for
    any number of [run]s, in whatever world each call finds. *)
Inductive constructed : BiasCheck -> Prop :=
| constructed_init inp g model path key w self w' :
    __init__ inp g model path key w = (Ok self, w') ->
    constructed self
| constructed_run self w r p' :
    constructed self ->
    run {| this := self; world := w |} = (r, p') ->
    constructed (this p').

(** ** How the world moves on

    [evolves allowed w w']: [w'] is [w] after some more events, the service
    and the credential are the same, and every remote call among the new
    events was made from an [allowed] call site. *)

Definition evolves (allowed : call_site -> Prop) (w w' : World) : Prop :=
  service w' = service w /\
  config_api_key w' = config_api_key w /\
  exists l, trace w' = (trace w ++ l)%list /\
            forall site rq, In (Called site rq) l -> allowed site.

(** [r] was generated for [prompt] between the worlds [w] and [w']: the
    generation request went out after some events [mid], and [r] is what
    [llm_output] makes of the service's reply to it. *)
Definition generated_in (w w' : World) (prompt r : string) : Prop :=
  exists mid rest,
    trace w' = ((trace w ++ mid)
                ++ Called Generation (generation_request w prompt) :: rest)%list /\
    r = answer (service w (trace w ++ mid)%list (generation_request w prompt)).

(** ** Concrete program states *)

(** A world with no statistics file, in which the service answers [No]
    to every request. *)
Definition quiet_world : World :=
  {| files := ∅; write_error := fun _ => None; stdin := [];
     service := fun _ _ => Text "No"; config_api_key := "sk-test";
     openai_api_key := None; trace := [] |}.

(** A world like [quiet_world] whose service answers [yes, it is]. *)
Definition wary_world : World :=
  {| files := ∅; write_error := fun _ => None; stdin := [];
     service := fun _ _ => Text "yes, it is"; config_api_key := "sk-test";
     openai_api_key := None; trace := [] |}.

(** A world like [quiet_world] whose service fails on every request. *)
Definition broken_world : World :=
  {| files := ∅; write_error := fun _ => None; stdin := [];
     service := fun _ _ => Failure "Connection error."; config_api_key := "sk-test";
     openai_api_key := None; trace := [] |}.

(** [BiasCheck(user_input="How many people live in the world?")] built in
    a world without a statistics file. *)
Definition fresh : BiasCheck :=
  {| user_input := "How many people live in the world?";
     guardrails := true;
     fallback := FALLBACK;
     config := {| config_base_model := "gpt-3.5-turbo";
                  config_guardrails := true |};
     stats_file := "bias_stats.json";
     stats := zero_stats |}.

(** An instance like [fresh], with guardrails disabled. *)
Definition unguarded : BiasCheck :=
  {| user_input := "How many people live in the world?";
     guardrails := false;
     fallback := FALLBACK;
     config := {| config_base_model := "gpt-3.5-turbo";
                  config_guardrails := false |};
     stats_file := "bias_stats.json";
     stats := zero_stats |}.

(** [sub] occurs in [s]. *)
Definition occurs (sub s : string) : Prop :=
  exists pre post, s = pre ++ sub ++ post.

(** ** Statements of the specification, and what they are checked on *)

(** C2 as the specification states it: when the service fails, the prompt
    check lets the prompt pass and the output check reports bias. *)
Definition error_defaults_as_specified : Prop :=
  forall prompt output p m1 m2,
    Text.truthy prompt = true ->
    prompt <> fallback (this p) ->
    reply_to (world p) (prompt_request (world p) prompt) = Failure m1 ->
    reply_to (world p) (output_request (world p) output) = Failure m2 ->
    fst (_check_prompt prompt p) = Ok true /\
    fst (_check_output_bias_via_llm output p) = Ok true.

(** [_save_stats] on one instance, then [_load_stats] for a new instance
    on the same file. *)
Definition save_then_load (self : BiasCheck) (w : World) : result Stats * World :=
  let (_, p) := _save_stats {| this := self; world := w |} in
  _load_stats (stats_file self) (world p).

(** What [_save_stats] would write for the statistics [st]: the four
    entries, in the order fallbacks true, false, bias true, false. *)
Definition written_counts (st : Stats) : list json :=
  [ Counter.get (fallbacks st) (KBool true);
    Counter.get (fallbacks st) (KBool false);
    Counter.get (bias st) (KBool true);
    Counter.get (bias st) (KBool false) ].

(** The instance [fresh] after one run in which the prompt passed and the
    output was found unbiased. *)
Definition once : BiasCheck :=
  bump_bias false (bump_fallbacks false fresh).

(** The world of a second process: the statistics file is the one written
    after the run that led to [once]. *)
Definition second_world : World :=
  set_files {[ "bias_stats.json" := Doc (stats_document (stats once)) ]}
    quiet_world.

(** C7 as the specification states it: loading gives zero counters, and
    does not raise, both without a file and with a file that does not hold
    a JSON document. *)
Definition load_defaults_as_specified : Prop :=
  forall path w,
    files w !! path = None \/ files w !! path = Some Garbage ->
    exists st, fst (_load_stats path w) = Ok st /\
               written_counts st = [JInt 0; JInt 0; JInt 0; JInt 0].

(** A world whose statistics file holds text that is not JSON. *)
Definition garbled_world : World :=
  set_files {[ "bias_stats.json" := Garbage ]} quiet_world.

(** [after_runs n self self']: [self'] is [self] after [n] calls of [run],
    each in whatever world it finds. *)
Inductive after_runs : nat -> BiasCheck -> BiasCheck -> Prop :=
| after_no_run self : after_runs 0 self self
| after_one_more n self self1 w r p' :
    after_runs n self self1 ->
    run {| this := self1; world := w |} = (r, p') ->
    after_runs (S n) self (this p').

(** [fallback_count.true + fallback_count.false] *)
Definition fallback_total (self : BiasCheck) : Z :=
  count (fallbacks (stats self)) true + count (fallbacks (stats self)) false.


(** The statistics file is in the format of the record: there is no
    file yet, or it holds a JSON object whose member ["fallbacks"], if it
    has one, is a JSON object again.  Every file that [_save_stats] writes
    is of this kind. *)
Definition record_format (f : option file) : Prop :=
  match f with
  | None => True
  | Some (Doc (JObj kvs)) =>
      match members_get "fallbacks" kvs with
      | None | Some (JObj _) => True
      | Some _ => False
      end
  | Some _ => False
  end.

(** A world whose statistics file is not in that format: it holds a list
    under ["fallbacks"]. *)
Definition listed_world : World :=
  set_files
    {[ "bias_stats.json" :=
         Doc (JObj [ ("fallbacks", JArr [JBool true]); ("bias", JObj []) ]) ]}
    quiet_world.

(** The instance built in [listed_world]: [Counter([True])] counts one. *)
Definition listed : BiasCheck :=
  {| user_input := "How many people live in the world?";
     guardrails := true;
     fallback := FALLBACK;
     config := {| config_base_model := "gpt-3.5-turbo";
                  config_guardrails := true |};
     stats_file := "bias_stats.json";
     stats := {| fallbacks := <[KBool true := JInt 1]> ∅; bias := ∅ |} |}.

(** The instance [fresh] after one run in [quiet_world]. *)
Definition fresh_after_run : BiasCheck :=
  this (snd (run {| this := fresh; world := quiet_world |})).

(** ** The closed form of a run *)

(** What [_check_prompt] returns for [prompt], and the world it leaves. *)
Definition prompt_outcome (self : BiasCheck) (prompt : string) (w : World)
  : bool * World :=
  if negb (Text.truthy prompt) || String.eqb prompt (fallback self) then
    (false, w)
  else
    let rq := prompt_request w prompt in
    let w1 := emit (Called PromptCheck rq) w in
    match reply_to w rq with
    | Text t => (negb (Text.contains "yes" t), w1)
    | Failure msg => (false, emit (Logged ("Error in _check_prompt: " ++ msg)) w1)
    end.

(** What [run] returns on an instance with integer counts, and the state
    it leaves. *)
Definition run_outcome (self : BiasCheck) (w : World) : result string * Proc :=
  let (passed, w1) := prompt_outcome self (user_input self) w in
  let self1 := bump_fallbacks (negb passed) self in
  let w2 := saved (stats self1) (stats_file self) w1 in
  if passed then
    let rq := generation_request w2 (user_input self) in
    let out := answer (reply_to w2 rq) in
    let w3 := emit (Called Generation rq) w2 in
    if negb (config_guardrails (config self)) || String.eqb out (fallback self)
    then (Ok out, {| this := self1; world := w3 |})
    else
      let orq := output_request w3 out in
      let biased := output_verdict (reply_to w3 orq) in
      let self2 := bump_bias biased self1 in
      (Ok (if biased then REJECTION else out),
       {| this := self2;
          world := saved (stats self2) (stats_file self)
                     (emit (Called OutputCheck orq) w3) |})
  else
    (Ok (fallback self), {| this := self1; world := w2 |}).

(** The call sites of the remote calls among some events, in order. *)
Fixpoint sites (l : list event) : list call_site :=
  match l with
  | [] => []
  | Called site _ :: l' => site :: sites l'
  | _ :: l' => sites l'
  end.

(** The requests of the remote calls among some events, in order. *)
Fixpoint requests (l : list event) : list request :=
  match l with
  | [] => []
  | Called _ rq :: l' => rq :: requests l'
  | _ :: l' => requests l'
  end.

(** What [_save_stats] adds to the trace in world [w]. *)
Definition save_log (path : string) (w : World) : list event :=
  match write_error w path with
  | Some msg => [Logged ("Error saving stats: " ++ msg)]
  | None => []
  end.

(** [bias_count.true + bias_count.false] *)
Definition bias_total (self : BiasCheck) : Z :=
  count (bias (stats self)) true + count (bias (stats self)) false.

(** The service is down: it fails on every request. *)
Definition service_down (w : World) : Prop :=
  forall past rq, exists msg, service w past rq = Failure msg.

(** Every count of both counters is at least zero. *)
Definition counts_nonneg (st : Stats) : Prop :=
  forall b, 0 <= count (fallbacks st) b /\ 0 <= count (bias st) b.

(** [BiasCheck(user_input="Sorry, I cannot assist with that.")] built in
    a world without a statistics file. *)
Definition echo : BiasCheck :=
  {| user_input := FALLBACK;
     guardrails := true;
     fallback := FALLBACK;
     config := {| config_base_model := "gpt-3.5-turbo";
                  config_guardrails := true |};
     stats_file := "bias_stats.json";
     stats := zero_stats |}.

(** Every value of the counter is an integer that is at least zero. *)
Definition natural_valued (c : Counter) : Prop :=
  forall k v, c !! k = Some v -> exists z, v = JInt z /\ 0 <= z.

(** What the script prints for [result] and the instance [checker]. *)
Definition report (result : string) (checker : BiasCheck) : list (list printed) :=
  [ [PStr "Final result:"; PStr result];
    [PStr (Text.newline ++ "Current statistics:")];
    [PStr "Fallbacks (biased prompts):"; PCounter (fallbacks (stats checker))];
    [PStr "Biased outputs:"; PCounter (bias (stats checker))] ].

(** * Properties *)

Lemma bind_ret_r {S A} (m : M S A) s : bind m (fun a => ret a) s = m s.
Proof. unfold bind, ret. destruct (m s) as [[a | e] s']; reflexivity. Qed.

(** ** What each method does to the state *)

Ltac unfold_py :=
  unfold bind, ret, raise, gets, modify, try_except, in_world, lift_result.

Lemma responses_create_eq site model instructions inp w :
  responses_create site model instructions inp w =
  let rq := request_of w model instructions inp in
  (match reply_to w rq with
   | Text t => Ok t
   | Failure msg => Raise (APIError msg)
   end, emit (Called site rq) w).
Proof.
  unfold responses_create, reply_to, request_of. unfold_py. simpl.
  destruct (service w (trace w) _); reflexivity.
Qed.

Lemma save_stats_eq p :
  _save_stats p =
  (Ok tt, with_world p (saved (stats (this p)) (stats_file (this p)) (world p))).
Proof.
  unfold _save_stats, json_dump, logging_error, saved, with_world.
  unfold_py. simpl.
  destruct (write_error (world p) (stats_file (this p))); reflexivity.
Qed.

Lemma check_prompt_eq prompt p :
  _check_prompt prompt p =
  if negb (Text.truthy prompt) || String.eqb prompt (fallback (this p)) then
    (Ok false, p)
  else
    let rq := prompt_request (world p) prompt in
    let w1 := emit (Called PromptCheck rq) (world p) in
    match reply_to (world p) rq with
    | Text t => (Ok (negb (Text.contains "yes" t)), with_world p w1)
    | Failure msg =>
        (Ok false,
         with_world p (emit (Logged ("Error in _check_prompt: " ++ msg)) w1))
    end.
Proof.
  unfold _check_prompt. unfold bind at 1. unfold gets at 1.
  destruct (negb (Text.truthy prompt) || String.eqb prompt (fallback (this p))).
  - reflexivity.
  - unfold try_except, bind, in_world at 1.
    rewrite responses_create_eq. cbv zeta.
    fold (prompt_request (world p) prompt).
    destruct (reply_to (world p) (prompt_request (world p) prompt)); reflexivity.
Qed.

Lemma llm_output_eq prompt p :
  llm_output prompt p =
  if String.eqb prompt (fallback (this p)) then (Ok (fallback (this p)), p)
  else
    let rq := generation_request (world p) prompt in
    (Ok (match reply_to (world p) rq with
         | Text t => t
         | Failure _ => MODEL_ERROR
         end),
     with_world p (emit (Called Generation rq) (world p))).
Proof.
  unfold llm_output. unfold bind at 1. unfold gets at 1.
  destruct (String.eqb prompt (fallback (this p))).
  - reflexivity.
  - unfold try_except, in_world. rewrite responses_create_eq. cbv zeta.
    fold (generation_request (world p) prompt).
    destruct (reply_to (world p) (generation_request (world p) prompt));
      reflexivity.
Qed.

Lemma check_output_eq output p :
  _check_output_bias_via_llm output p =
  let rq := output_request (world p) output in
  (Ok (match reply_to (world p) rq with
       | Text t => Text.contains "Yes" t
       | Failure _ => true
       end),
   with_world p (emit (Called OutputCheck rq) (world p))).
Proof.
  unfold _check_output_bias_via_llm, try_except, bind, in_world.
  rewrite responses_create_eq. cbv zeta.
  fold (output_request (world p) output).
  destruct (reply_to (world p) (output_request (world p) output)); reflexivity.
Qed.

(** ** Counters *)

Lemma KBool_inj b1 b2 : KBool b1 = KBool b2 -> b1 = b2.
Proof. destruct b1, b2; unfold KBool; simpl; intros H; congruence. Qed.

Lemma get_insert_eq (c : Counter) k v : Counter.get (<[k := v]> c) k = v.
Proof. unfold Counter.get. now rewrite lookup_insert_eq. Qed.

Lemma get_insert_ne (c : Counter) k k' v :
  k <> k' -> Counter.get (<[k := v]> c) k' = Counter.get c k'.
Proof. intros H. unfold Counter.get. now rewrite lookup_insert_ne. Qed.

Lemma numeric_get c b : numeric c -> Counter.get c (KBool b) = JInt (count c b).
Proof. intros H. unfold count. destruct (H b) as [z ->]. reflexivity. Qed.

Lemma numeric_insert (c : Counter) b z :
  numeric c -> numeric (<[KBool b := JInt z]> c).
Proof.
  intros H b'. destruct (decide (KBool b = KBool b')) as [E | E].
  - rewrite <- E, get_insert_eq. eauto.
  - rewrite get_insert_ne by assumption. apply H.
Qed.

Lemma int_valued_numeric c : int_valued c -> numeric c.
Proof.
  intros H b. unfold Counter.get.
  destruct (c !! KBool b) as [v |] eqn:E; simpl; [ | eauto ].
  destruct (H _ _ E) as [z ->]. eauto.
Qed.

Lemma numeric_zeros : numeric Counter.zeros.
Proof. intros []; exists 0; reflexivity. Qed.

Lemma count_zeros b : count Counter.zeros b = 0.
Proof. destruct b; reflexivity. Qed.

Lemma incr_numeric c b :
  numeric c ->
  Counter.incr c (KBool b) = Ok (<[KBool b := JInt (count c b + 1)]> c).
Proof.
  intros H. unfold Counter.incr. rewrite (numeric_get c b H). reflexivity.
Qed.

Lemma count_insert_eq (c : Counter) b z :
  count (<[KBool b := JInt z]> c) b = z.
Proof. unfold count. now rewrite get_insert_eq. Qed.

Lemma count_insert_ne (c : Counter) b b' z :
  b <> b' -> count (<[KBool b := JInt z]> c) b' = count c b'.
Proof.
  intros H. unfold count. rewrite get_insert_ne; [ reflexivity | ].
  intros E. apply H, KBool_inj, E.
Qed.

Lemma incr_int_valued c k c' :
  int_valued c -> Counter.incr c k = Ok c' -> int_valued c'.
Proof.
  unfold Counter.incr. intros H E.
  destruct (Counter.plus_one (Counter.get c k)) as [v | e] eqn:P; [ | discriminate ].
  injection E as <-. intros k' v' L.
  destruct (decide (k = k')) as [-> | N].
  - rewrite lookup_insert_eq in L. injection L as <-.
    unfold Counter.plus_one in P.
    destruct (Counter.get c k'); try discriminate; injection P as <-; eauto.
  - rewrite lookup_insert_ne in L by assumption. eauto.
Qed.

Lemma count_elements_int_valued xs : forall c c',
  int_valued c -> Counter.count_elements c xs = Ok c' -> int_valued c'.
Proof.
  induction xs as [| x xs IH]; intros c c' H E; simpl in E.
  - injection E as <-. exact H.
  - destruct (Counter.hash x) as [k | e]; [ | discriminate ].
    destruct (Counter.incr c k) as [c1 | e] eqn:I; [ | discriminate ].
    eapply IH; [ | exact E ]. eapply incr_int_valued; eauto.
Qed.

Lemma int_valued_empty : int_valued ∅.
Proof. intros k v L. rewrite lookup_empty in L. discriminate. Qed.

Lemma fold_members_num kvs : forall (acc : Counter) z,
  fold_left (fun c kv => <[KStr (fst kv) := snd kv]> c) kvs acc !! KNum z
  = acc !! KNum z.
Proof.
  induction kvs as [| kv kvs IH]; intros acc z; simpl.
  - reflexivity.
  - rewrite IH. apply lookup_insert_ne. discriminate.
Qed.

(** A counter read from a JSON object has string keys only. *)
Lemma of_members_get kvs b : Counter.get (Counter.of_members kvs) (KBool b) = JInt 0.
Proof.
  unfold Counter.get, Counter.of_members, KBool.
  rewrite fold_members_num, lookup_empty. reflexivity.
Qed.

Lemma of_json_numeric v c : Counter.of_json v = Ok c -> numeric c.
Proof.
  destruct v; simpl; intros E; try discriminate.
  - injection E as <-. apply int_valued_numeric, int_valued_empty.
  - apply int_valued_numeric.
    eapply count_elements_int_valued; [ apply int_valued_empty | exact E ].
  - apply int_valued_numeric.
    eapply count_elements_int_valued; [ apply int_valued_empty | exact E ].
  - injection E as <-. intros b. exists 0. apply of_members_get.
Qed.

(** ** Instances *)

Lemma incr_fallbacks_eq k p :
  numeric (fallbacks (stats (this p))) ->
  incr_fallbacks k p =
  (Ok tt, {| this := bump_fallbacks k (this p); world := world p |}).
Proof.
  intros H. unfold incr_fallbacks. unfold_py. simpl.
  rewrite (incr_numeric _ k H). reflexivity.
Qed.

Lemma incr_bias_eq k p :
  numeric (bias (stats (this p))) ->
  incr_bias k p =
  (Ok tt, {| this := bump_bias k (this p); world := world p |}).
Proof.
  intros H. unfold incr_bias. unfold_py. simpl.
  rewrite (incr_numeric _ k H). reflexivity.
Qed.

Lemma wf_bump_fallbacks k self : wf self -> wf (bump_fallbacks k self).
Proof.
  intros [H1 H2 H3 H4]. split; simpl; try assumption.
  now apply numeric_insert.
Qed.

Lemma wf_bump_bias k self : wf self -> wf (bump_bias k self).
Proof.
  intros [H1 H2 H3 H4]. split; simpl; try assumption.
  now apply numeric_insert.
Qed.

(** ** Loading and construction *)

Lemma load_stats_absent path w :
  files w !! path = None -> _load_stats path w = (Ok zero_stats, w).
Proof.
  intros H. unfold _load_stats, path_exists. unfold_py. simpl.
  rewrite H. reflexivity.
Qed.

Lemma load_stats_garbage path w :
  files w !! path = Some Garbage ->
  _load_stats path w = (Raise (JSONDecodeError "Expecting value"), w).
Proof.
  intros H. unfold _load_stats, path_exists, json_load. unfold_py. simpl.
  rewrite H. simpl. rewrite H. reflexivity.
Qed.

Lemma load_stats_object path w kvs :
  files w !! path = Some (Doc (JObj kvs)) ->
  _load_stats path w =
  (match counter_of_member "fallbacks" kvs with
   | Raise e => Raise e
   | Ok fb =>
       match counter_of_member "bias" kvs with
       | Raise e => Raise e
       | Ok bs => Ok {| fallbacks := fb; bias := bs |}
       end
   end, w).
Proof.
  intros H. unfold _load_stats, path_exists, json_load, counter_of_member.
  unfold_py. simpl. rewrite H. simpl. rewrite H.
  destruct (members_get "fallbacks" kvs) as [v |];
    [ destruct (Counter.of_json v) | ]; try reflexivity;
    (destruct (members_get "bias" kvs) as [v' |];
      [ destruct (Counter.of_json v') | ]; reflexivity).
Qed.

Lemma counter_of_member_numeric name kvs c :
  counter_of_member name kvs = Ok c -> numeric c.
Proof.
  unfold counter_of_member. destruct (members_get name kvs).
  - apply of_json_numeric.
  - intros E. injection E as <-. apply numeric_zeros.
Qed.

(** Loading never changes the world. *)
Lemma load_stats_world path w r w' : _load_stats path w = (r, w') -> w' = w.
Proof.
  destruct (files w !! path) as [[d |] |] eqn:F.
  - destruct d;
      try (unfold _load_stats, path_exists, json_load; unfold_py; simpl;
           rewrite F; simpl; rewrite F; congruence).
    rewrite (load_stats_object _ _ _ F). congruence.
  - rewrite (load_stats_garbage _ _ F). congruence.
  - rewrite (load_stats_absent _ _ F). congruence.
Qed.

Lemma load_stats_numeric path w st w' :
  _load_stats path w = (Ok st, w') ->
  numeric (fallbacks st) /\ numeric (bias st).
Proof.
  destruct (files w !! path) as [[d |] |] eqn:F.
  - destruct d;
      try (unfold _load_stats, path_exists, json_load; unfold_py; simpl;
           rewrite F; simpl; rewrite F; congruence).
    rewrite (load_stats_object _ _ _ F).
    destruct (counter_of_member "fallbacks" members) as [fb | e] eqn:E1;
      [ | congruence ].
    destruct (counter_of_member "bias" members) as [bs | e] eqn:E2;
      [ | congruence ].
    intros E. injection E as <- _. simpl.
    split; eapply counter_of_member_numeric; eauto.
  - rewrite (load_stats_garbage _ _ F). congruence.
  - rewrite (load_stats_absent _ _ F). intros E. injection E as <- _.
    split; apply numeric_zeros.
Qed.

Lemma init_eq inp g model path key w :
  inp <> OtherInput ->
  __init__ inp g model path key w =
  match resolve_input inp w with
  | (Raise e, w1) => (Raise e, w1)
  | (Ok text, w1) =>
      if Text.truthy (Text.strip text) then
        match _load_stats path w1 with
        | (Raise e, w2) => (Raise e, w2)
        | (Ok st, w2) =>
            (Ok {| user_input := text; guardrails := g; fallback := FALLBACK;
                   config := {| config_base_model := model;
                                config_guardrails := g |};
                   stats_file := path; stats := st |},
             set_openai_api_key key w2)
        end
      else (Raise (ValueError "Input text cannot be empty"), w1)
  end.
Proof.
  intros H. unfold __init__.
  destruct inp; try congruence; unfold bind at 1; simpl resolve_input;
    match goal with |- context [match ?m w with _ => _ end] =>
      destruct (m w) as [[text | e] w1] end; try reflexivity;
    (destruct (Text.truthy (Text.strip text)); [ | reflexivity ];
     unfold bind at 1; destruct (_load_stats path w1) as [[st | e] w2];
     reflexivity).
Qed.

Lemma init_wf inp g model path key w self w' :
  __init__ inp g model path key w = (Ok self, w') -> wf self.
Proof.
  assert (inp = OtherInput \/ inp <> OtherInput) as [-> | N]
    by (destruct inp; auto; right; discriminate);
    [ discriminate | ].
  rewrite (init_eq _ _ _ _ _ _ N).
  destruct (resolve_input inp w) as [[text | e] w1]; [ | discriminate ].
  destruct (Text.truthy (Text.strip text)) eqn:T; [ | discriminate ].
  destruct (_load_stats path w1) as [[st | e] w2] eqn:L; [ | discriminate ].
  intros E. injection E as <- _.
  destruct (load_stats_numeric _ _ _ _ L). split; simpl; auto.
Qed.

(** ** The pipeline *)

(** [_check_prompt] always returns, and leaves the instance as it is. *)
Lemma check_prompt_returns prompt p :
  exists b w1, _check_prompt prompt p = (Ok b, with_world p w1).
Proof.
  rewrite check_prompt_eq.
  destruct (negb (Text.truthy prompt) || String.eqb prompt (fallback (this p))).
  - exists false, (world p). destruct p; reflexivity.
  - cbv zeta.
    destruct (reply_to (world p) (prompt_request (world p) prompt)); eauto.
Qed.

Lemma check_prompt_passed prompt p p1 :
  _check_prompt prompt p = (Ok true, p1) ->
  String.eqb prompt (fallback (this p)) = false.
Proof.
  rewrite check_prompt_eq.
  destruct (String.eqb prompt (fallback (this p))); [ | reflexivity ].
  rewrite orb_true_r. discriminate.
Qed.

Lemma filter_prompt_eq p b w1 :
  numeric (fallbacks (stats (this p))) ->
  _check_prompt (user_input (this p)) p = (Ok b, with_world p w1) ->
  filter_prompt p =
  (Ok (if b then user_input (this p) else fallback (this p)),
   let self1 := bump_fallbacks (negb b) (this p) in
   {| this := self1; world := saved (stats self1) (stats_file self1) w1 |}).
Proof.
  intros N C. unfold filter_prompt.
  unfold bind at 1. unfold gets at 1.
  unfold bind at 1. rewrite C.
  unfold bind at 1. rewrite incr_fallbacks_eq by exact N.
  unfold bind at 1. rewrite save_stats_eq.
  reflexivity.
Qed.

Lemma filter_output_eq out p :
  numeric (bias (stats (this p))) ->
  filter_output out p =
  if negb (config_guardrails (config (this p)))
     || String.eqb out (fallback (this p))
  then (Ok out, p)
  else
    let w := world p in
    let biased := output_verdict (reply_to w (output_request w out)) in
    let self1 := bump_bias biased (this p) in
    (Ok (if biased then REJECTION else out),
     {| this := self1;
        world := saved (stats self1) (stats_file self1)
                   (emit (Called OutputCheck (output_request w out)) w) |}).
Proof.
  intros N. unfold filter_output.
  unfold bind at 1. unfold gets at 1.
  destruct (negb (config_guardrails (config (this p)))
            || String.eqb out (fallback (this p))); [ reflexivity | ].
  unfold bind at 1. rewrite check_output_eq. cbv zeta.
  unfold bind at 1. rewrite incr_bias_eq by exact N.
  unfold bind at 1. rewrite save_stats_eq.
  reflexivity.
Qed.

(** [run] when the prompt has not passed. *)
Lemma run_rejected p w1 :
  wf (this p) ->
  _check_prompt (user_input (this p)) p = (Ok false, with_world p w1) ->
  run p =
  (Ok (fallback (this p)),
   let self1 := bump_fallbacks true (this p) in
   {| this := self1; world := saved (stats self1) (stats_file self1) w1 |}).
Proof.
  intros W C. unfold run. unfold bind at 1.
  rewrite (filter_prompt_eq p false w1 (wf_fallbacks _ W) C).
  cbv zeta. unfold bind at 1. unfold gets at 1.
  simpl. rewrite String.eqb_refl. reflexivity.
Qed.

(** [run] when the prompt has passed. *)
Lemma run_passed p w1 :
  wf (this p) ->
  _check_prompt (user_input (this p)) p = (Ok true, with_world p w1) ->
  run p =
  let self1 := bump_fallbacks false (this p) in
  let w2 := saved (stats self1) (stats_file self1) w1 in
  let rq := generation_request w2 (user_input (this p)) in
  let out := answer (reply_to w2 rq) in
  filter_output out {| this := self1; world := emit (Called Generation rq) w2 |}.
Proof.
  intros W C. unfold run. unfold bind at 1.
  rewrite (filter_prompt_eq p true w1 (wf_fallbacks _ W) C).
  cbv beta iota zeta. unfold bind at 1. unfold gets at 1.
  pose proof (check_prompt_passed _ _ _ C) as E.
  cbn [this world bump_fallbacks set_stats fallback stats_file stats user_input].
  rewrite E.
  unfold bind at 1. rewrite llm_output_eq.
  cbn [this world bump_fallbacks set_stats fallback stats_file stats user_input].
  rewrite E. cbv beta iota zeta.
  apply bind_ret_r.
Qed.

(** Every method keeps [wf]. *)
Lemma run_wf p r p' : wf (this p) -> run p = (r, p') -> wf (this p').
Proof.
  intros W.
  destruct (check_prompt_returns (user_input (this p)) p) as (b & w1 & C).
  destruct b.
  - rewrite (run_passed p w1 W C). cbv zeta.
    rewrite filter_output_eq by (apply wf_bias, wf_bump_fallbacks, W).
    match goal with |- context [if ?c then _ else _] => destruct c end.
    + intros E. injection E as _ <-. simpl. apply wf_bump_fallbacks, W.
    + cbv zeta. intros E. injection E as _ <-. simpl.
      apply wf_bump_bias, wf_bump_fallbacks, W.
  - rewrite (run_rejected p w1 W C). cbv zeta.
    intros E. injection E as _ <-. simpl. apply wf_bump_fallbacks, W.
Qed.

Lemma constructed_wf self : constructed self -> wf self.
Proof.
  induction 1 as [inp g model path key w self w' E | self w r p' _ IH E].
  - eapply init_wf, E.
  - eapply run_wf; [ | exact E ]. exact IH.
Qed.

(** ** How the world moves on *)

Lemma evolves_refl allowed w : evolves allowed w w.
Proof.
  repeat split. exists []. split; [ now rewrite app_nil_r | intros ? ? [] ].
Qed.

Lemma evolves_trans allowed w1 w2 w3 :
  evolves allowed w1 w2 -> evolves allowed w2 w3 -> evolves allowed w1 w3.
Proof.
  intros (S1 & K1 & l1 & T1 & A1) (S2 & K2 & l2 & T2 & A2).
  split; [ congruence | ]. split; [ congruence | ].
  exists (l1 ++ l2)%list. split.
  - rewrite T2, T1. now rewrite app_assoc.
  - intros site rq I. apply in_app_or in I as [I | I]; eauto.
Qed.

Lemma evolves_weaken (allowed allowed' : call_site -> Prop) w w' :
  (forall s, allowed s -> allowed' s) ->
  evolves allowed w w' -> evolves allowed' w w'.
Proof.
  intros H (S1 & K1 & l & T & A). repeat split; try assumption.
  exists l. split; eauto.
Qed.

Lemma evolves_log allowed msg w : evolves allowed w (emit (Logged msg) w).
Proof.
  repeat split. exists [Logged msg]. split; [ reflexivity | ].
  intros site rq [I | []]. discriminate.
Qed.

Lemma evolves_call (allowed : call_site -> Prop) site rq w :
  allowed site -> evolves allowed w (emit (Called site rq) w).
Proof.
  intros H. repeat split. exists [Called site rq]. split; [ reflexivity | ].
  intros site' rq' [I | []]. injection I as <- _. exact H.
Qed.

Lemma evolves_saved allowed st path w : evolves allowed w (saved st path w).
Proof.
  unfold saved. destruct (write_error w path).
  - apply evolves_log.
  - repeat split. exists []. split; [ simpl; now rewrite app_nil_r | intros ? ? [] ].
Qed.

Lemma check_prompt_evolves prompt p b p1 :
  _check_prompt prompt p = (Ok b, p1) ->
  this p1 = this p /\ evolves (fun s => s = PromptCheck) (world p) (world p1).
Proof.
  rewrite check_prompt_eq.
  destruct (negb (Text.truthy prompt) || String.eqb prompt (fallback (this p))).
  - intros E. injection E as _ <-. split; [ reflexivity | apply evolves_refl ].
  - cbv zeta.
    destruct (reply_to (world p) (prompt_request (world p) prompt));
      intros E; injection E as _ <-; (split; [ reflexivity | ]); simpl.
    + now apply evolves_call.
    + eapply evolves_trans; [ now apply evolves_call | apply evolves_log ].
Qed.

(** ** The result of [run] *)

Lemma generated_from w w2 w' prompt :
  evolves (fun _ => True) w w2 ->
  evolves (fun _ => True)
          (emit (Called Generation (generation_request w2 prompt)) w2) w' ->
  generated_in w w' prompt
    (answer (reply_to w2 (generation_request w2 prompt))).
Proof.
  intros (S1 & K1 & l1 & T1 & _) (_ & _ & l2 & T2 & _).
  assert (generation_request w2 prompt = generation_request w prompt) as R
    by (unfold generation_request, request_of; now rewrite K1).
  exists l1, l2. split.
  - rewrite T2. simpl. rewrite T1, R. now rewrite <- app_assoc.
  - unfold reply_to. now rewrite S1, T1, R.
Qed.

(** C1. For an instance that [__init__] has built (so its input is not
    blank), [run] returns, in any world and after any number of earlier
    runs: it never raises.  What it returns is the fallback message, the
    rejection string, or the answer generated in this run for the stored
    input, which is the service's text or, when the call failed, the
    string [MODEL_ERROR]. *)
Theorem run_returns_one_of_three (self : BiasCheck) (w : World) :
  constructed self ->
  exists r p',
    run {| this := self; world := w |} = (Ok r, p') /\
    (r = FALLBACK \/ r = REJECTION \/
     generated_in w (world p') (user_input self) r).
Proof.
  intros C. pose proof (constructed_wf _ C) as W.
  set (p := {| this := self; world := w |}).
  destruct (check_prompt_returns (user_input self) p) as (b & w1 & E).
  destruct (check_prompt_evolves _ _ _ _ E) as [_ Ev1]. simpl in Ev1.
  apply (evolves_weaken _ (fun _ => True)) in Ev1; [ | auto ].
  destruct b.
  - rewrite (run_passed p w1 W E). cbv zeta.
    rewrite filter_output_eq by (apply wf_bias, wf_bump_fallbacks, W).
    set (self1 := bump_fallbacks false (this p)).
    set (w2 := saved (stats self1) (stats_file self1) w1).
    assert (evolves (fun _ => True) w w2) as Ev2
      by (eapply evolves_trans; [ exact Ev1 | apply evolves_saved ]).
    match goal with |- context [if ?c then _ else _] => destruct c end.
    + eexists _, _. split; [ reflexivity | ]. right. right.
      apply generated_from; [ exact Ev2 | apply evolves_refl ].
    + cbv zeta. eexists _, _. split; [ reflexivity | ].
      match goal with |- context [if ?c then _ else _] => destruct c end.
      * right. left. reflexivity.
      * right. right. apply generated_from; [ exact Ev2 | ].
        cbn [world this].
        eapply evolves_trans; [ now apply evolves_call | apply evolves_saved ].
  - rewrite (run_rejected p w1 W E). cbv zeta.
    eexists _, _. split; [ reflexivity | ]. left. apply (wf_fallback _ W).
Qed.

Lemma fresh_built :
  __init__ (StrInput "How many people live in the world?") true
           "gpt-3.5-turbo" "bias_stats.json" None quiet_world
  = (Ok fresh, quiet_world).
Proof. reflexivity. Qed.

Lemma run_returns_one_of_three_witness :
  exists r p',
    run {| this := fresh; world := quiet_world |} = (Ok r, p') /\
    (r = FALLBACK \/ r = REJECTION \/
     generated_in quiet_world (world p') (user_input fresh) r).
Proof.
  apply (run_returns_one_of_three fresh quiet_world).
  apply (constructed_init (StrInput "How many people live in the world?") true
           "gpt-3.5-turbo" "bias_stats.json" None quiet_world fresh quiet_world).
  reflexivity.
Defined.

(** C4. When [_check_prompt] judges the stored prompt biased (it returns
    [False]), [run] returns the fallback message; every remote call made
    during the run comes from the prompt check, so neither the answer
    generation nor the output check is invoked; and the counter under
    ["bias"] is the same as before, in both of its entries. *)
Theorem biased_prompt_stops_pipeline (self : BiasCheck) (w : World) (p1 : Proc) :
  constructed self ->
  _check_prompt (user_input self) {| this := self; world := w |} = (Ok false, p1) ->
  exists p',
    run {| this := self; world := w |} = (Ok FALLBACK, p') /\
    evolves (fun site => site = PromptCheck) w (world p') /\
    bias (stats (this p')) = bias (stats self) /\
    (forall b, count (bias (stats (this p'))) b = count (bias (stats self)) b).
Proof.
  intros C E. pose proof (constructed_wf _ C) as W.
  set (p := {| this := self; world := w |}) in *.
  destruct (check_prompt_returns (user_input self) p) as (b & w1 & E').
  assert (b = false /\ p1 = with_world p w1) as [-> ->]
    by (rewrite E in E'; injection E' as <- <-; auto).
  destruct (check_prompt_evolves _ _ _ _ E) as [_ Ev]. simpl in Ev.
  rewrite (run_rejected p w1 W E). cbv zeta.
  unfold p. cbn [this]. rewrite (wf_fallback _ W).
  eexists. split; [ reflexivity | ]. simpl.
  split; [ | split; [ reflexivity | reflexivity ] ].
  eapply evolves_trans; [ exact Ev | apply evolves_saved ].
Qed.

Lemma biased_prompt_stops_pipeline_witness :
  exists p',
    run {| this := fresh; world := wary_world |} = (Ok FALLBACK, p') /\
    evolves (fun site => site = PromptCheck) wary_world (world p') /\
    bias (stats (this p')) = bias (stats fresh) /\
    (forall b, count (bias (stats (this p'))) b = count (bias (stats fresh)) b).
Proof.
  apply (biased_prompt_stops_pipeline fresh wary_world
           (with_world {| this := fresh; world := wary_world |}
              (emit (Called PromptCheck
                       (prompt_request wary_world (user_input fresh)))
                    wary_world))).
  - apply (constructed_init (StrInput "How many people live in the world?") true
             "gpt-3.5-turbo" "bias_stats.json" None quiet_world fresh quiet_world).
    reflexivity.
  - reflexivity.
Defined.

(** C6. When guardrails are disabled, or the answer is the fallback
    message, [filter_output] returns the answer as it is and leaves the
    whole state untouched: no request goes to the service (whatever it
    would have replied), the counter under ["bias"] is not changed and no
    file is written. *)
Theorem filter_output_skips (out : string) (p : Proc) :
  config_guardrails (config (this p)) = false \/ out = fallback (this p) ->
  filter_output out p = (Ok out, p).
Proof.
  intros H. unfold filter_output. unfold bind at 1. unfold gets at 1.
  assert (negb (config_guardrails (config (this p)))
          || String.eqb out (fallback (this p)) = true) as ->.
  { destruct H as [-> | ->]; [ reflexivity | ].
    rewrite String.eqb_refl. apply orb_true_r. }
  reflexivity.
Qed.

Lemma filter_output_skips_witness :
  filter_output "About eight billion."
    {| this := unguarded; world := wary_world |}
  = (Ok "About eight billion.", {| this := unguarded; world := wary_world |}).
Proof.
  apply (filter_output_skips "About eight billion."
           {| this := unguarded; world := wary_world |}).
  left. reflexivity.
Defined.

(** C10. For an instance whose fallback message is the fixed one, a prompt
    that is empty or equal to that message makes [_check_prompt] return
    [False] (not passed) with the state untouched, so without any request
    to the service; and [llm_output], given the fallback message, returns
    it with the state untouched as well. *)
Theorem guards_answer_without_service (prompt : string) (p : Proc) :
  fallback (this p) = FALLBACK ->
  prompt = EmptyString \/ prompt = FALLBACK ->
  _check_prompt prompt p = (Ok false, p) /\
  llm_output FALLBACK p = (Ok FALLBACK, p).
Proof.
  intros F H. split.
  - rewrite check_prompt_eq, F.
    destruct H as [-> | ->]; reflexivity.
  - rewrite llm_output_eq, F. reflexivity.
Qed.

Lemma guards_answer_without_service_witness :
  _check_prompt FALLBACK {| this := fresh; world := quiet_world |}
  = (Ok false, {| this := fresh; world := quiet_world |}) /\
  llm_output FALLBACK {| this := fresh; world := quiet_world |}
  = (Ok FALLBACK, {| this := fresh; world := quiet_world |}).
Proof.
  apply (guards_answer_without_service FALLBACK
           {| this := fresh; world := quiet_world |}).
  - reflexivity.
  - right. reflexivity.
Defined.

(** ** Substrings *)

Lemma append_cons c a b : String c a ++ b = String c (a ++ b).
Proof. reflexivity. Qed.

Lemma append_nil b : EmptyString ++ b = b.
Proof. reflexivity. Qed.

Lemma prefix_spec a : forall s,
  String.prefix a s = true <-> exists post, s = a ++ post.
Proof.
  induction a as [| c a IH]; intros s.
  - split; [ intros _; exists s; reflexivity | intros _; now destruct s ].
  - destruct s as [| d s]; cbn [String.prefix].
    + split; [ discriminate | intros [post E]; discriminate ].
    + destruct (ascii_dec c d) as [-> | N].
      * rewrite IH.
        split; intros [post E]; exists post; rewrite append_cons in *; congruence.
      * split; [ discriminate | ].
        intros [post E]. rewrite append_cons in E. congruence.
Qed.

Lemma contains_spec sub : forall s,
  Text.contains sub s = true <-> occurs sub s.
Proof.
  induction s as [| c s IH]; cbn [Text.contains]; rewrite orb_true_iff.
  - split.
    + intros [H | H]; [ | discriminate ].
      apply prefix_spec in H as [post E]. exists EmptyString, post. exact E.
    + intros (pre & post & E). left. apply prefix_spec.
      destruct pre; [ exists post; exact E | ].
      rewrite append_cons in E. discriminate.
  - rewrite IH. split.
    + intros [H | (pre & post & E)].
      * change (String.prefix sub (String c s) = true) in H.
        apply prefix_spec in H as [post E]. exists EmptyString, post. exact E.
      * exists (String c pre), post. rewrite append_cons. now rewrite E.
    + intros (pre & post & E). destruct pre as [| d pre].
      * left. change (String.prefix sub (String c s) = true).
        apply prefix_spec. exists post. exact E.
      * right. rewrite append_cons in E. injection E as _ E.
        exists pre, post. exact E.
Qed.

(** C9. When the service answers (it raises no error) a prompt that is
    neither empty nor the fallback message, [_check_prompt] judges the
    prompt biased (returns [False]) exactly when [yes], in lower case,
    occurs in the response text; and [_check_output_bias_via_llm] judges
    the output biased (returns [True]) exactly when [Yes] occurs in the
    response text. *)
Theorem verdicts_by_substring (prompt output t1 t2 : string) (p : Proc) :
  Text.truthy prompt = true ->
  prompt <> fallback (this p) ->
  reply_to (world p) (prompt_request (world p) prompt) = Text t1 ->
  reply_to (world p) (output_request (world p) output) = Text t2 ->
  (exists passed, fst (_check_prompt prompt p) = Ok passed /\
                  (passed = false <-> occurs "yes" t1)) /\
  (exists biased, fst (_check_output_bias_via_llm output p) = Ok biased /\
                  (biased = true <-> occurs "Yes" t2)).
Proof.
  intros T N R1 R2. split.
  - rewrite check_prompt_eq, T.
    apply String.eqb_neq in N. rewrite N. cbv zeta. rewrite R1.
    eexists. split; [ reflexivity | ].
    rewrite negb_false_iff. apply contains_spec.
  - rewrite check_output_eq. cbv zeta. rewrite R2.
    eexists. split; [ reflexivity | ]. apply contains_spec.
Qed.

Lemma verdicts_by_substring_witness :
  (exists passed,
     fst (_check_prompt "Why are women always late?"
            {| this := fresh; world := wary_world |}) = Ok passed /\
     (passed = false <-> occurs "yes" "yes, it is")) /\
  (exists biased,
     fst (_check_output_bias_via_llm "They are not."
            {| this := fresh; world := wary_world |}) = Ok biased /\
     (biased = true <-> occurs "Yes" "yes, it is")).
Proof.
  apply (verdicts_by_substring "Why are women always late?" "They are not."
           "yes, it is" "yes, it is" {| this := fresh; world := wary_world |}).
  - reflexivity.
  - discriminate.
  - reflexivity.
  - reflexivity.
Defined.

(** ** Errors of the remote service *)

(** Where C2 fails: with a service that is down, [_check_prompt] returns
    [False] for an ordinary prompt, and [run] answers with the fallback
    message instead of letting the prompt through. *)
Lemma prompt_check_error_counterexample :
  reply_to broken_world
    (prompt_request broken_world "How many people live in the world?")
  = Failure "Connection error." /\
  fst (_check_prompt "How many people live in the world?"
         {| this := fresh; world := broken_world |}) = Ok false /\
  fst (run {| this := fresh; world := broken_world |}) = Ok FALLBACK /\
  ~ error_defaults_as_specified.
Proof.
  split; [ reflexivity | ]. split; [ reflexivity | ]. split; [ reflexivity | ].
  intros H.
  destruct (H "How many people live in the world?" "No"
              {| this := fresh; world := broken_world |}
              "Connection error." "Connection error.") as [H1 _];
    try reflexivity; discriminate.
Qed.

(** C2, amended. When the call to the service raises, [_check_prompt]
    returns [False] (not passed: the prompt is treated as biased) and
    [_check_output_bias_via_llm] returns [True] (biased): both checks fail
    closed. *)
Theorem remote_errors_fail_closed (prompt output m1 m2 : string) (p : Proc) :
  reply_to (world p) (prompt_request (world p) prompt) = Failure m1 ->
  reply_to (world p) (output_request (world p) output) = Failure m2 ->
  fst (_check_prompt prompt p) = Ok false /\
  fst (_check_output_bias_via_llm output p) = Ok true.
Proof.
  intros R1 R2. split.
  - rewrite check_prompt_eq.
    destruct (negb (Text.truthy prompt) || String.eqb prompt (fallback (this p)));
      [ reflexivity | ].
    cbv zeta. rewrite R1. reflexivity.
  - rewrite check_output_eq. cbv zeta. rewrite R2. reflexivity.
Qed.

Lemma remote_errors_fail_closed_witness :
  fst (_check_prompt "How many people live in the world?"
         {| this := fresh; world := broken_world |}) = Ok false /\
  fst (_check_output_bias_via_llm "About eight billion."
         {| this := fresh; world := broken_world |}) = Ok true.
Proof.
  apply (remote_errors_fail_closed "How many people live in the world?"
           "About eight billion." "Connection error." "Connection error."
           {| this := fresh; world := broken_world |}).
  - reflexivity.
  - reflexivity.
Defined.

(** ** Saving and loading the statistics *)

(** The counters that come back are keyed by the strings of the file, so
    their entries for [True] and [False] read zero. *)
Lemma save_then_load_eq self w :
  write_error w (stats_file self) = None ->
  exists st w',
    save_then_load self w = (Ok st, w') /\
    fallbacks st = Counter.of_members
                     [ ("true", Counter.get (fallbacks (stats self)) (KBool true));
                       ("false", Counter.get (fallbacks (stats self)) (KBool false)) ] /\
    bias st = Counter.of_members
                [ ("true", Counter.get (bias (stats self)) (KBool true));
                  ("false", Counter.get (bias (stats self)) (KBool false)) ] /\
    written_counts st = [JInt 0; JInt 0; JInt 0; JInt 0].
Proof.
  intros H. unfold save_then_load. rewrite save_stats_eq.
  unfold saved, with_world. cbn [this world]. rewrite H.
  erewrite load_stats_object
    by (cbn [files set_files]; apply lookup_insert_eq).
  eexists _, _. split; [ reflexivity | ].
  split; [ reflexivity | ]. split; [ reflexivity | ].
  unfold written_counts. cbn [fallbacks bias].
  now rewrite !of_members_get.
Qed.

Lemma once_reached :
  exists r w', run {| this := fresh; world := quiet_world |}
               = (Ok r, {| this := once; world := w' |}).
Proof. eexists _, _. vm_compute. reflexivity. Qed.

(** C3, at the failing input. After one run the instance counts one
    passed prompt and one unbiased output, and [_save_stats] writes these
    counts; loaded into a new instance, all four entries read zero, and
    that is what the new instance would write. *)
Theorem round_trip_loses_counts :
  written_counts (stats once) = [JInt 0; JInt 1; JInt 0; JInt 1] /\
  exists st w',
    save_then_load once quiet_world = (Ok st, w') /\
    files w' !! "bias_stats.json" = Some (Doc (stats_document (stats once))) /\
    written_counts st = [JInt 0; JInt 0; JInt 0; JInt 0].
Proof.
  split; [ reflexivity | ].
  eexists _, _. split; [ vm_compute; reflexivity | ].
  split; reflexivity.
Qed.

(** A second process, started over the file that the first one wrote,
    counts from zero again.  After its run the counter under
    ["fallbacks"] holds the two strings of the file and one new boolean
    key, which is the sample output recorded at the end of the source,
    [Counter({'false': 1, False: 1, 'true': 0})]; and the file it writes
    is the one it found. *)
Example second_process_counts :
  exists self w1 r p',
    __init__ (StrInput "How many people live in the world?") true
             "gpt-3.5-turbo" "bias_stats.json" None second_world
    = (Ok self, w1) /\
    run {| this := self; world := w1 |} = (Ok r, p') /\
    Counter.get (fallbacks (stats (this p'))) (KStr "false") = JInt 1 /\
    Counter.get (fallbacks (stats (this p'))) (KStr "true") = JInt 0 /\
    Counter.get (fallbacks (stats (this p'))) (KBool false) = JInt 1 /\
    Counter.get (fallbacks (stats (this p'))) (KBool true) = JInt 0 /\
    files (world p') !! "bias_stats.json"
    = files second_world !! "bias_stats.json".
Proof.
  eexists _, _, _, _. split; [ vm_compute; reflexivity | ].
  split; [ vm_compute; reflexivity | ]. repeat split.
Qed.

(** Where C7 fails: over a file that does not parse, [_load_stats] raises
    the decoding error, and so does the constructor. *)
Lemma load_garbage_counterexample :
  fst (_load_stats "bias_stats.json" garbled_world)
  = Raise (JSONDecodeError "Expecting value") /\
  fst (__init__ (StrInput "How many people live in the world?") true
         "gpt-3.5-turbo" "bias_stats.json" None garbled_world)
  = Raise (JSONDecodeError "Expecting value") /\
  ~ load_defaults_as_specified.
Proof.
  split; [ reflexivity | ]. split; [ reflexivity | ].
  intros H.
  destruct (H "bias_stats.json" garbled_world) as (st & E & _).
  - right. reflexivity.
  - discriminate.
Qed.

(** C7, amended. Without a statistics file [_load_stats] returns counters
    with every entry zero and does not raise.  With a file it depends on
    the content: text that is not JSON raises the decoding error to the
    caller; a document that is not an object raises as well; for an
    object, each counter is built from its member, and is the zero counter
    when the member is missing. The world is never changed. *)
Theorem load_stats_cases (path : string) (w : World) :
  _load_stats path w =
  (match files w !! path with
   | None => Ok zero_stats
   | Some Garbage => Raise (JSONDecodeError "Expecting value")
   | Some (Doc (JObj kvs)) =>
       match counter_of_member "fallbacks" kvs with
       | Raise e => Raise e
       | Ok fb =>
           match counter_of_member "bias" kvs with
           | Raise e => Raise e
           | Ok bs => Ok {| fallbacks := fb; bias := bs |}
           end
       end
   | Some (Doc _) => Raise (AttributeError "object has no attribute 'get'")
   end, w).
Proof.
  destruct (files w !! path) as [[d |] |] eqn:F.
  - destruct d; try (now apply load_stats_object);
      unfold _load_stats, path_exists, json_load; unfold_py; simpl;
      rewrite F; simpl; rewrite F; reflexivity.
  - now apply load_stats_garbage.
  - now apply load_stats_absent.
Qed.

Example load_without_file :
  _load_stats "bias_stats.json" quiet_world = (Ok zero_stats, quiet_world) /\
  written_counts zero_stats = [JInt 0; JInt 0; JInt 0; JInt 0].
Proof. split; reflexivity. Qed.

(** ** Counting the runs *)

Lemma listed_built :
  __init__ (StrInput "How many people live in the world?") true
           "gpt-3.5-turbo" "bias_stats.json" None listed_world
  = (Ok listed, listed_world).
Proof. reflexivity. Qed.

(** Outside the format of the record the counts need not start at zero:
    [Counter] counts the elements of a list, so an instance built over a
    file that lists [true] under ["fallbacks"] starts with one fallback
    counted, and has two after its first run. *)
Example list_under_fallbacks_is_counted :
  ~ record_format (files listed_world !! "bias_stats.json") /\
  fallback_total listed = 1 /\
  fallback_total (this (snd (run {| this := listed; world := listed_world |}))) = 2.
Proof.
  split; [ intros H; exact H | ]. split; [ reflexivity | vm_compute; reflexivity ].
Qed.

(** One run bumps one fallback entry, and at most one bias entry. *)
Lemma run_step self w r p' :
  wf self ->
  run {| this := self; world := w |} = (r, p') ->
  (exists k, fallbacks (stats (this p'))
             = fallbacks (stats (bump_fallbacks k self))) /\
  (bias (stats (this p')) = bias (stats self) \/
   exists b, bias (stats (this p')) = bias (stats (bump_bias b self))).
Proof.
  intros W. set (p := {| this := self; world := w |}).
  destruct (check_prompt_returns (user_input self) p) as (b & w1 & C).
  destruct b.
  - rewrite (run_passed p w1 W C). cbv zeta.
    rewrite filter_output_eq by (apply wf_bias, wf_bump_fallbacks, W).
    match goal with |- context [if ?c then _ else _] => destruct c end.
    + intros E. injection E as _ <-. split; [ exists false | left ]; reflexivity.
    + cbv zeta. intros E. injection E as _ <-.
      split; [ exists false; reflexivity | right ].
      eexists. reflexivity.
  - rewrite (run_rejected p w1 W C). cbv zeta.
    intros E. injection E as _ <-. split; [ exists true | left ]; reflexivity.
Qed.

Lemma count_bump_le (c : Counter) k b :
  count c b <= count (<[KBool k := JInt (count c k + 1)]> c) b.
Proof.
  destruct (bool_decide (k = b)) eqn:D.
  - apply bool_decide_eq_true in D as <-. rewrite count_insert_eq. lia.
  - apply bool_decide_eq_false in D. rewrite count_insert_ne by exact D. lia.
Qed.

Lemma run_counts self w r p' :
  wf self ->
  run {| this := self; world := w |} = (r, p') ->
  (exists k,
     count (fallbacks (stats (this p'))) k
       = count (fallbacks (stats self)) k + 1 /\
     count (fallbacks (stats (this p'))) (negb k)
       = count (fallbacks (stats self)) (negb k)) /\
  (forall b, count (bias (stats self)) b <= count (bias (stats (this p'))) b).
Proof.
  intros W E. destruct (run_step _ _ _ _ W E) as [[k F] B]. split.
  - exists k. rewrite F. cbn [bump_fallbacks set_stats stats fallbacks]. split.
    + apply count_insert_eq.
    + apply count_insert_ne. now destruct k.
  - intros b. destruct B as [-> | [k' ->]]; [ lia | ].
    cbn [bump_bias set_stats stats bias]. apply count_bump_le.
Qed.

Lemma after_runs_counts n self self' :
  wf self ->
  after_runs n self self' ->
  wf self' /\
  fallback_total self' = fallback_total self + Z.of_nat n /\
  (forall b, count (fallbacks (stats self)) b <= count (fallbacks (stats self')) b) /\
  (forall b, count (bias (stats self)) b <= count (bias (stats self')) b).
Proof.
  intros W A.
  induction A as [self | n self self1 w r p' A IH E].
  - split; [ exact W | ]. split; [ simpl; lia | ]. split; intros b; lia.
  - destruct (IH W) as (W1 & T & F & B).
    destruct (run_counts _ _ _ _ W1 E) as [(k & K1 & K2) B'].
    split; [ eapply run_wf; [ | exact E ]; exact W1 | ].
    split; [ | split ].
    + unfold fallback_total in *. destruct k; simpl negb in K2; lia.
    + intros b. specialize (F b).
      destruct k, b; simpl negb in K2; lia.
    + intros b. specialize (B b). specialize (B' b). lia.
Qed.






Lemma saved_record_format st path w :
  write_error w path = None ->
  record_format (files (saved st path w) !! path).
Proof.
  intros H. unfold saved. rewrite H. cbn [files set_files].
  rewrite lookup_insert_eq. exact I.
Qed.



(** The same over a file that an earlier process has written: the
    instance built in [second_world] has one fallback counted after its
    first run. *)
Example runs_counted_over_saved_file :
  record_format (files second_world !! "bias_stats.json") /\
  exists self w1 r p',
    __init__ (StrInput "How many people live in the world?") true
             "gpt-3.5-turbo" "bias_stats.json" None second_world
    = (Ok self, w1) /\
    run {| this := self; world := w1 |} = (r, p') /\
    fallback_total (this p') = 1.
Proof.
  split; [ exact I | ].
  eexists _, _, _, _. split; [ vm_compute; reflexivity | ].
  split; [ vm_compute; reflexivity | reflexivity ].
Qed.

(** ** Input validation *)

Lemma lstrip_truthy s : Text.truthy (Text.lstrip s) = negb (Text.all_space s).
Proof.
  induction s as [| c s IH]; simpl; [ reflexivity | ].
  destruct (Text.isspace c); simpl; [ exact IH | reflexivity ].
Qed.

Lemma lstrip_all_space s : Text.all_space (Text.lstrip s) = Text.all_space s.
Proof.
  induction s as [| c s IH]; simpl; [ reflexivity | ].
  destruct (Text.isspace c) eqn:E; simpl; [ exact IH | now rewrite E ].
Qed.

Lemma rev_onto_all_space s : forall acc,
  Text.all_space (Text.rev_onto s acc) = Text.all_space s && Text.all_space acc.
Proof.
  induction s as [| c s IH]; intros acc; simpl; [ reflexivity | ].
  rewrite IH. simpl. destruct (Text.isspace c), (Text.all_space s); reflexivity.
Qed.

Lemma rev_onto_truthy s : forall acc,
  Text.truthy (Text.rev_onto s acc) = Text.truthy s || Text.truthy acc.
Proof.
  induction s as [| c s IH]; intros acc; simpl; [ reflexivity | ].
  rewrite IH. simpl. apply orb_true_r.
Qed.

(** [s.strip()] is empty exactly when [s] is all whitespace. *)
Lemma strip_truthy s : Text.truthy (Text.strip s) = negb (Text.all_space s).
Proof.
  unfold Text.strip, Text.rstrip, Text.reverse.
  rewrite rev_onto_truthy, orb_false_r, lstrip_truthy.
  rewrite rev_onto_all_space, andb_true_r, lstrip_all_space. reflexivity.
Qed.

Lemma get_input_eq w :
  _get_input w =
  match stdin w with
  | [] => (Raise EOFError, emit (Prompted "Enter your text: ") w)
  | line :: rest =>
      (Ok line, set_stdin rest (emit (Prompted "Enter your text: ") w))
  end.
Proof.
  unfold _get_input, input. unfold_py. simpl. destruct (stdin w); reflexivity.
Qed.

(** C8. The constructor rejects an input that is neither [None] nor a
    string with [ValueError].  Otherwise it resolves the text: a non-empty
    string is taken as it is, and with [None] (or an empty string) the text
    is read from the console, one line, after the prompt.  A resolved text
    that is empty or all whitespace is rejected with [ValueError]; any
    other text is a non-empty string and is what the constructor stores in
    [user_input], construction then going on to load the statistics. *)
Theorem init_validates_input
    (inp : supplied) (g : bool) (model path : string) (key : option string)
    (w : World) :
  (resolve_input inp w =
   match inp with
   | StrInput (String c s) => (Ok (String c s), w)
   | _ =>
       match stdin w with
       | [] => (Raise EOFError, emit (Prompted "Enter your text: ") w)
       | line :: rest =>
           (Ok line, set_stdin rest (emit (Prompted "Enter your text: ") w))
       end
   end) /\
  match inp with
  | OtherInput =>
      __init__ inp g model path key w
      = (Raise (ValueError "user_input must be a string or None"), w)
  | _ =>
      match resolve_input inp w with
      | (Raise e, w1) => __init__ inp g model path key w = (Raise e, w1)
      | (Ok text, w1) =>
          if Text.all_space text then
            __init__ inp g model path key w
            = (Raise (ValueError "Input text cannot be empty"), w1)
          else
            text <> EmptyString /\
            match _load_stats path w1 with
            | (Raise e, w2) => __init__ inp g model path key w = (Raise e, w2)
            | (Ok st, w2) =>
                exists self,
                  __init__ inp g model path key w
                  = (Ok self, set_openai_api_key key w2) /\
                  user_input self = text /\ stats self = st
            end
      end
  end.
Proof.
  split.
  - destruct inp as [| [| c s] |]; simpl; try apply get_input_eq; reflexivity.
  - assert (inp = OtherInput \/ inp <> OtherInput) as [-> | N]
      by (destruct inp; auto; right; discriminate);
      [ reflexivity | ].
    pose proof (init_eq inp g model path key w N) as E.
    destruct inp; try congruence;
      (destruct (resolve_input _ w) as [[text | e] w1]; [ | exact E ];
       rewrite strip_truthy in E;
       destruct (Text.all_space text) eqn:A; [ exact E | ];
       (split; [ intros ->; discriminate | ]);
       simpl in E;
       destruct (_load_stats path w1) as [[st | e] w2]; [ | exact E ];
       eexists; split; [ exact E | split; reflexivity ]).
Qed.

Example init_rejects_blank :
  fst (__init__ (StrInput "   ") true "gpt-3.5-turbo" "bias_stats.json" None
         quiet_world)
  = Raise (ValueError "Input text cannot be empty").
Proof. reflexivity. Qed.

Example init_reads_console :
  __init__ NoInput true "gpt-3.5-turbo" "bias_stats.json" None
    (set_stdin ["How many people live in the world?"] quiet_world)
  = (Ok fresh, emit (Prompted "Enter your text: ") quiet_world).
Proof. reflexivity. Qed.

(** * Further properties of the methods *)

(** ** The closed form *)

Lemma check_prompt_outcome prompt p :
  _check_prompt prompt p =
  (Ok (fst (prompt_outcome (this p) prompt (world p))),
   with_world p (snd (prompt_outcome (this p) prompt (world p)))).
Proof.
  rewrite check_prompt_eq. unfold prompt_outcome.
  destruct (negb (Text.truthy prompt) || String.eqb prompt (fallback (this p))).
  - destruct p; reflexivity.
  - cbv zeta.
    destruct (reply_to (world p) (prompt_request (world p) prompt)); reflexivity.
Qed.

Lemma prompt_outcome_passed self prompt w w1 :
  prompt_outcome self prompt w = (true, w1) ->
  String.eqb prompt (fallback self) = false.
Proof.
  unfold prompt_outcome.
  destruct (String.eqb prompt (fallback self)); [ | reflexivity ].
  rewrite orb_true_r. discriminate.
Qed.

Lemma run_eq self w :
  wf self -> run {| this := self; world := w |} = run_outcome self w.
Proof.
  intros W. set (p := {| this := self; world := w |}).
  pose proof (check_prompt_outcome (user_input self) p) as C.
  unfold run_outcome.
  change (this p) with self in C. change (world p) with w in C.
  destruct (prompt_outcome self (user_input self) w) as [passed w1] eqn:O.
  cbn [fst snd] in C. destruct passed.
  - rewrite (run_passed p w1 W C). cbv zeta.
    rewrite filter_output_eq by (apply wf_bias, wf_bump_fallbacks, W).
    reflexivity.
  - rewrite (run_rejected p w1 W C). reflexivity.
Qed.

(** ** What saving and calling do to the world *)

Lemma trace_saved st path w :
  trace (saved st path w) = (trace w ++ save_log path w)%list.
Proof.
  unfold saved, save_log. destruct (write_error w path); simpl.
  - reflexivity.
  - now rewrite app_nil_r.
Qed.

Lemma write_error_saved st path w :
  write_error (saved st path w) = write_error w.
Proof. unfold saved. destruct (write_error w path); reflexivity. Qed.

Lemma stdin_saved st path w : stdin (saved st path w) = stdin w.
Proof. unfold saved. destruct (write_error w path); reflexivity. Qed.

Lemma openai_api_key_saved st path w :
  openai_api_key (saved st path w) = openai_api_key w.
Proof. unfold saved. destruct (write_error w path); reflexivity. Qed.

Lemma config_api_key_saved st path w :
  config_api_key (saved st path w) = config_api_key w.
Proof. unfold saved. destruct (write_error w path); reflexivity. Qed.

Lemma files_saved_other st path w other :
  other <> path -> files (saved st path w) !! other = files w !! other.
Proof.
  intros N. unfold saved. destruct (write_error w path); simpl.
  - reflexivity.
  - apply lookup_insert_ne. congruence.
Qed.

Lemma files_saved st path w :
  write_error w path = None ->
  files (saved st path w) !! path = Some (Doc (stats_document st)).
Proof.
  intros H. unfold saved. rewrite H. simpl. apply lookup_insert_eq.
Qed.

Lemma sites_app l1 l2 : sites (l1 ++ l2) = (sites l1 ++ sites l2)%list.
Proof.
  induction l1 as [| e l1 IH]; simpl; [ reflexivity | ].
  destruct e; simpl; now rewrite IH.
Qed.

Lemma requests_app l1 l2 :
  requests (l1 ++ l2) = (requests l1 ++ requests l2)%list.
Proof.
  induction l1 as [| e l1 IH]; simpl; [ reflexivity | ].
  destruct e; simpl; now rewrite IH.
Qed.

Lemma sites_save_log path w : sites (save_log path w) = [].
Proof. unfold save_log. destruct (write_error w path); reflexivity. Qed.

Lemma requests_save_log path w : requests (save_log path w) = [].
Proof. unfold save_log. destruct (write_error w path); reflexivity. Qed.

(** X1. [_save_stats] never raises and leaves the instance as it is.  It
    touches no file but the statistics file.  When that file can be opened
    it then holds the four counts and nothing is logged; when it cannot,
    no file changes and one error line is logged. *)
Theorem save_stats_never_aborts (p : Proc) :
  exists w',
    _save_stats p = (Ok tt, with_world p w') /\
    (forall other, other <> stats_file (this p) ->
                   files w' !! other = files (world p) !! other) /\
    match write_error (world p) (stats_file (this p)) with
    | None =>
        files w' !! stats_file (this p)
        = Some (Doc (stats_document (stats (this p)))) /\
        trace w' = trace (world p)
    | Some msg =>
        files w' = files (world p) /\
        trace w' = (trace (world p) ++ [Logged ("Error saving stats: " ++ msg)])%list
    end.
Proof.
  eexists. split; [ apply save_stats_eq | ]. split.
  - intros other N. now apply files_saved_other.
  - unfold saved.
    destruct (write_error (world p) (stats_file (this p))); simpl.
    + split; reflexivity.
    + split; [ apply lookup_insert_eq | reflexivity ].
Qed.

(** ** Runs, case by case *)

(** Splits a goal about [run_outcome self w] into the ways a run can go. *)
Ltac run_cases self w :=
  unfold run_outcome, prompt_outcome;
  destruct (negb (Text.truthy (user_input self))
            || String.eqb (user_input self) (fallback self)) eqn:Guard;
  [ | cbv zeta;
      destruct (reply_to w (prompt_request w (user_input self)))
        as [review | msg] eqn:Review;
      [ destruct (Text.contains "yes" review) eqn:Yes | ] ];
  cbn [negb];
  try match goal with
      | |- context [if negb (config_guardrails ?c) || String.eqb ?o ?f then _ else _] =>
          destruct (negb (config_guardrails c) || String.eqb o f) eqn:Skip;
          [ | cbv zeta;
              match goal with
              | |- context [output_verdict ?x] =>
                  destruct (output_verdict x) eqn:Verdict
              end ]
      end.

(** Brings the trace of the world after a run into the form
    [trace w ++ ...]. *)
Ltac trace_norm :=
  cbn [this world];
  repeat first [ rewrite trace_saved
               | progress cbn [trace emit] ];
  rewrite <- ?app_assoc.

(** X4. The remote calls of one run are made in a fixed order, each at
    most once: the prompt check, then the generation, then the output
    check; a run stops after any of them, or makes no call at all. *)
Theorem run_calls_in_order (self : BiasCheck) (w : World) r p' :
  constructed self ->
  run {| this := self; world := w |} = (r, p') ->
  exists l,
    trace (world p') = (trace w ++ l)%list /\
    (sites l = [] \/
     sites l = [PromptCheck] \/
     sites l = [PromptCheck; Generation] \/
     sites l = [PromptCheck; Generation; OutputCheck]).
Proof.
  intros C. rewrite (run_eq _ _ (constructed_wf _ C)).
  run_cases self w; intros E; injection E as _ <-; trace_norm;
    (eexists; split; [ reflexivity | ]);
    rewrite ?sites_app, ?sites_save_log; simpl; auto.
Qed.

Lemma run_calls_in_order_witness :
  exists l,
    trace (world (snd (run {| this := fresh; world := quiet_world |})))
    = (trace quiet_world ++ l)%list /\
    (sites l = [] \/
     sites l = [PromptCheck] \/
     sites l = [PromptCheck; Generation] \/
     sites l = [PromptCheck; Generation; OutputCheck]).
Proof.
  apply (run_calls_in_order fresh quiet_world
           (fst (run {| this := fresh; world := quiet_world |}))
           (snd (run {| this := fresh; world := quiet_world |}))).
  - apply (constructed_init (StrInput "How many people live in the world?") true
             "gpt-3.5-turbo" "bias_stats.json" None quiet_world fresh quiet_world).
    reflexivity.
  - vm_compute. reflexivity.
Defined.

(** X2. After a run, a statistics file that can be written holds exactly
    the counts the instance has in memory: the file on disk and the
    counters never drift apart within a process. *)
Theorem run_leaves_file_in_sync (self : BiasCheck) (w : World) r p' :
  constructed self ->
  write_error w (stats_file self) = None ->
  run {| this := self; world := w |} = (r, p') ->
  files (world p') !! stats_file self
  = Some (Doc (stats_document (stats (this p')))).
Proof.
  intros C H. rewrite (run_eq _ _ (constructed_wf _ C)).
  run_cases self w; intros E; injection E as _ <-; cbn [this world];
    repeat (progress cbn [files emit]);
    apply files_saved;
    repeat first [ rewrite write_error_saved | progress cbn [write_error emit] ];
    exact H.
Qed.

Lemma run_leaves_file_in_sync_witness :
  files (world (snd (run {| this := fresh; world := quiet_world |})))
    !! stats_file fresh
  = Some (Doc (stats_document
                 (stats (this (snd (run {| this := fresh; world := quiet_world |})))))).
Proof.
  apply (run_leaves_file_in_sync fresh quiet_world
           (fst (run {| this := fresh; world := quiet_world |}))
           (snd (run {| this := fresh; world := quiet_world |}))).
  - apply (constructed_init (StrInput "How many people live in the world?") true
             "gpt-3.5-turbo" "bias_stats.json" None quiet_world fresh quiet_world).
    reflexivity.
  - reflexivity.
  - vm_compute. reflexivity.
Defined.

Lemma service_saved st path w : service (saved st path w) = service w.
Proof. unfold saved. destruct (write_error w path); reflexivity. Qed.

Lemma truthy_of_strip s : Text.truthy (Text.strip s) = true -> Text.truthy s = true.
Proof. rewrite strip_truthy. now destruct s. Qed.

(** Brings a field of the world after a run back to the world before. *)
Ltac world_norm :=
  cbn [this world];
  repeat first [ rewrite write_error_saved
               | rewrite stdin_saved
               | rewrite openai_api_key_saved
               | rewrite config_api_key_saved
               | rewrite service_saved
               | progress cbn [write_error stdin openai_api_key config_api_key
                               service emit] ].

(** X3. [filter_prompt] returns the fallback message exactly when
    [_check_prompt] did not let the stored prompt pass; any other text it
    returns is the stored prompt itself.  So the comparison with the
    fallback message in [run] tells the two outcomes apart. *)
Theorem filter_prompt_result (p : Proc) :
  constructed (this p) ->
  exists text p',
    filter_prompt p = (Ok text, p') /\
    (text = fallback (this p) <->
     fst (_check_prompt (user_input (this p)) p) = Ok false) /\
    (text <> fallback (this p) -> text = user_input (this p)).
Proof.
  intros C. pose proof (constructed_wf _ C) as W.
  pose proof (check_prompt_outcome (user_input (this p)) p) as E.
  destruct (prompt_outcome (this p) (user_input (this p)) (world p))
    as [passed w1] eqn:O.
  cbn [fst snd] in E.
  rewrite (filter_prompt_eq p passed w1 (wf_fallbacks _ W) E), E.
  eexists _, _. split; [ reflexivity | ]. cbn [fst].
  destruct passed.
  - pose proof (prompt_outcome_passed _ _ _ _ O) as N.
    apply String.eqb_neq in N. split; [ | reflexivity ].
    split; [ intros H; now destruct N | discriminate ].
  - split; [ split; reflexivity | intros H; now destruct H ].
Qed.

Lemma filter_prompt_result_witness :
  exists text p',
    filter_prompt {| this := fresh; world := wary_world |} = (Ok text, p') /\
    (text = fallback fresh <->
     fst (_check_prompt (user_input fresh) {| this := fresh; world := wary_world |})
     = Ok false) /\
    (text <> fallback fresh -> text = user_input fresh).
Proof.
  apply (filter_prompt_result {| this := fresh; world := wary_world |}).
  apply (constructed_init (StrInput "How many people live in the world?") true
           "gpt-3.5-turbo" "bias_stats.json" None quiet_world fresh quiet_world).
  reflexivity.
Defined.

(** X15. A run changes nothing of the instance but its counters, reads
    nothing from the console, leaves the library-wide credential alone and
    touches no file other than the statistics file. *)
Theorem run_frame (self : BiasCheck) (w : World) r p' :
  constructed self ->
  run {| this := self; world := w |} = (r, p') ->
  user_input (this p') = user_input self /\
  guardrails (this p') = guardrails self /\
  fallback (this p') = fallback self /\
  config (this p') = config self /\
  stats_file (this p') = stats_file self /\
  stdin (world p') = stdin w /\
  openai_api_key (world p') = openai_api_key w /\
  (forall other, other <> stats_file self ->
                 files (world p') !! other = files w !! other).
Proof.
  intros C. rewrite (run_eq _ _ (constructed_wf _ C)).
  run_cases self w; intros E; injection E as _ <-;
    (repeat split; try reflexivity; [ world_norm; reflexivity .. | ]);
    intros other N; cbn [this world];
    repeat first [ rewrite files_saved_other by exact N
                 | progress cbn [files emit] ];
    reflexivity.
Qed.

Lemma run_frame_witness :
  let p' := snd (run {| this := fresh; world := quiet_world |}) in
  user_input (this p') = user_input fresh /\
  guardrails (this p') = guardrails fresh /\
  fallback (this p') = fallback fresh /\
  config (this p') = config fresh /\
  stats_file (this p') = stats_file fresh /\
  stdin (world p') = stdin quiet_world /\
  openai_api_key (world p') = openai_api_key quiet_world /\
  (forall other, other <> stats_file fresh ->
                 files (world p') !! other = files quiet_world !! other).
Proof.
  apply (run_frame fresh quiet_world
           (fst (run {| this := fresh; world := quiet_world |}))
           (snd (run {| this := fresh; world := quiet_world |}))).
  - apply (constructed_init (StrInput "How many people live in the world?") true
             "gpt-3.5-turbo" "bias_stats.json" None quiet_world fresh quiet_world).
    reflexivity.
  - vm_compute. reflexivity.
Defined.

(** X5. With guardrails disabled, a run never calls the output check and
    never changes the counter under ["bias"]; what it returns is the
    fallback message or the answer generated in this run, unfiltered. *)
Theorem run_without_guardrails (self : BiasCheck) (w : World) r p' :
  constructed self ->
  config_guardrails (config self) = false ->
  run {| this := self; world := w |} = (r, p') ->
  bias (stats (this p')) = bias (stats self) /\
  (exists l, trace (world p') = (trace w ++ l)%list /\
             ~ In OutputCheck (sites l)) /\
  (exists text, r = Ok text /\
                (text = FALLBACK \/
                 generated_in w (world p') (user_input self) text)).
Proof.
  intros C G. pose proof (constructed_wf _ C) as W. rewrite (run_eq _ _ W).
  run_cases self w; try (rewrite G in Skip; discriminate);
    intros E; injection E as <- <-; (split; [ reflexivity | ]); split;
    try (trace_norm; eexists; (split; [ reflexivity | ]);
         rewrite ?sites_app, ?sites_save_log; simpl; intuition discriminate);
    eexists; (split; [ reflexivity | ]);
    try (left; apply (wf_fallback _ W)).
  right. apply generated_from; [ | apply evolves_refl ].
  eapply evolves_trans; [ now apply evolves_call | apply evolves_saved ].
Qed.

Lemma run_without_guardrails_witness :
  let r := fst (run {| this := unguarded; world := quiet_world |}) in
  let p' := snd (run {| this := unguarded; world := quiet_world |}) in
  bias (stats (this p')) = bias (stats unguarded) /\
  (exists l, trace (world p') = (trace quiet_world ++ l)%list /\
             ~ In OutputCheck (sites l)) /\
  (exists text, r = Ok text /\
                (text = FALLBACK \/
                 generated_in quiet_world (world p') (user_input unguarded) text)).
Proof.
  apply (run_without_guardrails unguarded quiet_world
           (fst (run {| this := unguarded; world := quiet_world |}))
           (snd (run {| this := unguarded; world := quiet_world |}))).
  - apply (constructed_init (StrInput "How many people live in the world?") false
             "gpt-3.5-turbo" "bias_stats.json" None quiet_world unguarded
             quiet_world).
    reflexivity.
  - reflexivity.
  - vm_compute. reflexivity.
Defined.

(** X6. Every request of a run names the model [gpt-3.5-turbo] and
    carries the credential of [config], with one of the two fixed
    instructions: the [model] and [api_key] given to the constructor
    reach no request. *)
Theorem run_requests_are_fixed (self : BiasCheck) (w : World) r p' :
  constructed self ->
  run {| this := self; world := w |} = (r, p') ->
  exists l,
    trace (world p') = (trace w ++ l)%list /\
    Forall (fun rq => rq_model rq = "gpt-3.5-turbo" /\
                      rq_api_key rq = config_api_key w /\
                      (rq_instructions rq = CRITIC \/
                       rq_instructions rq = ASSISTANT))
           (requests l).
Proof.
  intros C. rewrite (run_eq _ _ (constructed_wf _ C)).
  run_cases self w; intros E; injection E as _ <-; trace_norm;
    (eexists; split; [ reflexivity | ]);
    rewrite ?requests_app, ?requests_save_log; simpl;
    repeat (apply Forall_cons; split;
            [ unfold prompt_request, generation_request, output_request,
                request_of; cbn [rq_model rq_api_key rq_instructions];
              world_norm; auto | ]);
    apply Forall_nil; exact I.
Qed.

Lemma run_requests_are_fixed_witness :
  exists l,
    trace (world (snd (run {| this := fresh; world := quiet_world |})))
    = (trace quiet_world ++ l)%list /\
    Forall (fun rq => rq_model rq = "gpt-3.5-turbo" /\
                      rq_api_key rq = config_api_key quiet_world /\
                      (rq_instructions rq = CRITIC \/
                       rq_instructions rq = ASSISTANT))
           (requests l).
Proof.
  apply (run_requests_are_fixed fresh quiet_world
           (fst (run {| this := fresh; world := quiet_world |}))
           (snd (run {| this := fresh; world := quiet_world |}))).
  - apply (constructed_init (StrInput "How many people live in the world?") true
             "gpt-3.5-turbo" "bias_stats.json" None quiet_world fresh quiet_world).
    reflexivity.
  - vm_compute. reflexivity.
Defined.

(** X7. While the service is down, every run returns the fallback
    message: the prompt check fails closed, no answer is requested, the
    count of fallbacks goes up by one and the counter under ["bias"]
    stays as it is. *)
Theorem run_with_service_down (self : BiasCheck) (w : World) :
  constructed self ->
  service_down w ->
  exists p',
    run {| this := self; world := w |} = (Ok FALLBACK, p') /\
    count (fallbacks (stats (this p'))) true
    = count (fallbacks (stats self)) true + 1 /\
    count (fallbacks (stats (this p'))) false
    = count (fallbacks (stats self)) false /\
    bias (stats (this p')) = bias (stats self) /\
    (exists l, trace (world p') = (trace w ++ l)%list /\
               ~ In Generation (sites l) /\ ~ In OutputCheck (sites l)).
Proof.
  intros C D. pose proof (constructed_wf _ C) as W. rewrite (run_eq _ _ W).
  assert (forall rq t, reply_to w rq <> Text t) as N.
  { intros rq t. unfold reply_to. destruct (D (trace w) rq) as [m ->].
    discriminate. }
  run_cases self w; try (now destruct (N _ _ Review));
    rewrite (wf_fallback _ W);
    (eexists; split; [ reflexivity | ]); cbn [this world];
    (split; [ apply (count_insert_eq _ true) | ]);
    (split; [ now apply (count_insert_ne _ true false) | ]);
    (split; [ reflexivity | ]);
    trace_norm; (eexists; split; [ reflexivity | ]);
    rewrite ?sites_app, ?sites_save_log; simpl; intuition discriminate.
Qed.

Lemma run_with_service_down_witness :
  exists p',
    run {| this := fresh; world := broken_world |} = (Ok FALLBACK, p') /\
    count (fallbacks (stats (this p'))) true
    = count (fallbacks (stats fresh)) true + 1 /\
    count (fallbacks (stats (this p'))) false
    = count (fallbacks (stats fresh)) false /\
    bias (stats (this p')) = bias (stats fresh) /\
    (exists l, trace (world p') = (trace broken_world ++ l)%list /\
               ~ In Generation (sites l) /\ ~ In OutputCheck (sites l)).
Proof.
  apply (run_with_service_down fresh broken_world).
  - apply (constructed_init (StrInput "How many people live in the world?") true
             "gpt-3.5-turbo" "bias_stats.json" None quiet_world fresh quiet_world).
    reflexivity.
  - intros past rq. exists "Connection error.". reflexivity.
Defined.

(** X8. The counter under ["bias"] follows the output check: a run that
    does not call the output check leaves it as it is; a run that calls
    it raises exactly one entry by one, the entry for [True] only when
    the run returns the rejection string, and the entry for [False] only
    when it returns a text other than the fallback message. *)
Theorem run_bias_bookkeeping (self : BiasCheck) (w : World) r p' :
  constructed self ->
  run {| this := self; world := w |} = (r, p') ->
  exists l,
    trace (world p') = (trace w ++ l)%list /\
    ((~ In OutputCheck (sites l) /\
      bias (stats (this p')) = bias (stats self)) \/
     (In OutputCheck (sites l) /\
      bias_total (this p') = bias_total self + 1 /\
      ((r = Ok REJECTION /\
        count (bias (stats (this p'))) true
        = count (bias (stats self)) true + 1 /\
        count (bias (stats (this p'))) false
        = count (bias (stats self)) false) \/
       ((exists text, r = Ok text /\ text <> fallback self) /\
        count (bias (stats (this p'))) false
        = count (bias (stats self)) false + 1 /\
        count (bias (stats (this p'))) true
        = count (bias (stats self)) true)))).
Proof.
  intros C. pose proof (constructed_wf _ C) as W. rewrite (run_eq _ _ W).
  run_cases self w; intros E; injection E as <- <-; trace_norm;
    (eexists; split; [ reflexivity | ]);
    rewrite ?sites_app, ?sites_save_log; simpl;
    try (left; split; [ intuition discriminate | reflexivity ]);
    right; (split; [ auto | ]); unfold bias_total;
    cbn [stats bump_bias bump_fallbacks set_stats bias fallbacks];
    rewrite ?count_insert_eq, ?count_insert_ne by discriminate.
  - split; [ lia | ]. left. auto.
  - split; [ lia | ]. right. split; [ | auto ].
    eexists. split; [ reflexivity | ].
    apply orb_false_elim in Skip as [_ Skip]. now apply String.eqb_neq.
Qed.

Lemma run_bias_bookkeeping_witness :
  let r := fst (run {| this := fresh; world := quiet_world |}) in
  let p' := snd (run {| this := fresh; world := quiet_world |}) in
  exists l,
    trace (world p') = (trace quiet_world ++ l)%list /\
    ((~ In OutputCheck (sites l) /\
      bias (stats (this p')) = bias (stats fresh)) \/
     (In OutputCheck (sites l) /\
      bias_total (this p') = bias_total fresh + 1 /\
      ((r = Ok REJECTION /\
        count (bias (stats (this p'))) true
        = count (bias (stats fresh)) true + 1 /\
        count (bias (stats (this p'))) false
        = count (bias (stats fresh)) false) \/
       ((exists text, r = Ok text /\ text <> fallback fresh) /\
        count (bias (stats (this p'))) false
        = count (bias (stats fresh)) false + 1 /\
        count (bias (stats (this p'))) true
        = count (bias (stats fresh)) true)))).
Proof.
  apply (run_bias_bookkeeping fresh quiet_world
           (fst (run {| this := fresh; world := quiet_world |}))
           (snd (run {| this := fresh; world := quiet_world |}))).
  - apply (constructed_init (StrInput "How many people live in the world?") true
             "gpt-3.5-turbo" "bias_stats.json" None quiet_world fresh quiet_world).
    reflexivity.
  - vm_compute. reflexivity.
Defined.

(** X10. A run asks the service for an answer exactly when the stored
    prompt is not the fallback message and the service replied to the
    prompt check with a text in which [yes], in lower case, does not
    occur; a reply such as [Yes], with a capital, lets the prompt
    through. *)
Theorem generation_happens_iff (self : BiasCheck) (w : World) r p' :
  constructed self ->
  run {| this := self; world := w |} = (r, p') ->
  exists l,
    trace (world p') = (trace w ++ l)%list /\
    (In Generation (sites l) <->
     user_input self <> FALLBACK /\
     exists t, reply_to w (prompt_request w (user_input self)) = Text t /\
               ~ occurs "yes" t).
Proof.
  intros C. pose proof (constructed_wf _ C) as W. rewrite (run_eq _ _ W).
  pose proof (truthy_of_strip _ (wf_input _ W)) as T.
  run_cases self w; intros E; injection E as _ <-; trace_norm;
    (eexists; split; [ reflexivity | ]);
    rewrite ?sites_app, ?sites_save_log; simpl;
    rewrite T, (wf_fallback _ W) in Guard; cbn [negb orb] in Guard.
  - apply String.eqb_eq in Guard. split; [ intuition discriminate | ].
    intros [N _]. now destruct N.
  - split; [ intuition discriminate | ].
    intros (_ & t & [= <-] & N). destruct N. now apply contains_spec.
  - apply String.eqb_neq in Guard. split; [ intros _ | auto ].
    split; [ exact Guard | ]. exists review. split; [ reflexivity | ].
    intros O. apply contains_spec in O. congruence.
  - apply String.eqb_neq in Guard. split; [ intros _ | auto ].
    split; [ exact Guard | ]. exists review. split; [ reflexivity | ].
    intros O. apply contains_spec in O. congruence.
  - apply String.eqb_neq in Guard. split; [ intros _ | auto ].
    split; [ exact Guard | ]. exists review. split; [ reflexivity | ].
    intros O. apply contains_spec in O. congruence.
  - split; [ intuition discriminate | ].
    intros (_ & t & [=] & _).
Qed.

Lemma generation_happens_iff_witness :
  exists l,
    trace (world (snd (run {| this := fresh; world := quiet_world |})))
    = (trace quiet_world ++ l)%list /\
    (In Generation (sites l) <->
     user_input fresh <> FALLBACK /\
     exists t, reply_to quiet_world (prompt_request quiet_world (user_input fresh))
               = Text t /\
               ~ occurs "yes" t).
Proof.
  apply (generation_happens_iff fresh quiet_world
           (fst (run {| this := fresh; world := quiet_world |}))
           (snd (run {| this := fresh; world := quiet_world |}))).
  - apply (constructed_init (StrInput "How many people live in the world?") true
             "gpt-3.5-turbo" "bias_stats.json" None quiet_world fresh quiet_world).
    reflexivity.
  - vm_compute. reflexivity.
Defined.

(** X12. When the stored prompt is the fallback message itself, a run
    returns the fallback message without any remote call, and counts a
    fallback. *)
Theorem run_on_fallback_text (self : BiasCheck) (w : World) :
  constructed self ->
  user_input self = FALLBACK ->
  exists p',
    run {| this := self; world := w |} = (Ok FALLBACK, p') /\
    (exists l, trace (world p') = (trace w ++ l)%list /\ sites l = []) /\
    count (fallbacks (stats (this p'))) true
    = count (fallbacks (stats self)) true + 1.
Proof.
  intros C U. pose proof (constructed_wf _ C) as W. rewrite (run_eq _ _ W).
  unfold run_outcome, prompt_outcome.
  rewrite U, (wf_fallback _ W), String.eqb_refl, orb_true_r. cbn [negb].
  eexists. split; [ reflexivity | ]. split.
  - trace_norm. eexists. split; [ reflexivity | apply sites_save_log ].
  - cbn [this]. apply (count_insert_eq _ true).
Qed.

Lemma run_on_fallback_text_witness :
  exists p',
    run {| this := echo; world := quiet_world |} = (Ok FALLBACK, p') /\
    (exists l, trace (world p') = (trace quiet_world ++ l)%list /\ sites l = []) /\
    count (fallbacks (stats (this p'))) true
    = count (fallbacks (stats echo)) true + 1.
Proof.
  apply (run_on_fallback_text echo quiet_world).
  - apply (constructed_init (StrInput FALLBACK) true
             "gpt-3.5-turbo" "bias_stats.json" None quiet_world echo quiet_world).
    reflexivity.
  - reflexivity.
Defined.

(** ** Construction *)

(** X9. Constructing an instance never contacts the service and changes
    no file.  The library-wide credential is set, to the [api_key]
    given, only when construction succeeds; a failed construction
    leaves it as it was.  The instance built carries the arguments and
    the fixed fallback message; and when a non-empty string is supplied
    nothing is printed or read on the console. *)
Theorem init_effects
    (inp : supplied) (g : bool) (model path : string) (key : option string)
    (w : World) r w' :
  __init__ inp g model path key w = (r, w') ->
  files w' = files w /\
  (exists l, trace w' = (trace w ++ l)%list /\ sites l = []) /\
  match r with
  | Ok self =>
      openai_api_key w' = key /\
      guardrails self = g /\
      config self = {| config_base_model := model; config_guardrails := g |} /\
      stats_file self = path /\
      fallback self = FALLBACK
  | Raise _ => openai_api_key w' = openai_api_key w
  end /\
  (forall c s, inp = StrInput (String c s) ->
               trace w' = trace w /\ stdin w' = stdin w).
Proof.
  assert (forall text w1 r w',
            files w1 = files w -> openai_api_key w1 = openai_api_key w ->
            (if Text.truthy (Text.strip text)
             then
               match _load_stats path w1 with
               | (Raise e, w2) => (Raise e, w2)
               | (Ok st, w2) =>
                   (Ok {| user_input := text; guardrails := g;
                          fallback := FALLBACK;
                          config := {| config_base_model := model;
                                       config_guardrails := g |};
                          stats_file := path; stats := st |},
                    set_openai_api_key key w2)
               end
             else (Raise (ValueError "Input text cannot be empty"), w1))
            = (r, w') ->
            files w' = files w /\ trace w' = trace w1 /\ stdin w' = stdin w1 /\
            match r with
            | Ok self =>
                openai_api_key w' = key /\
                guardrails self = g /\
                config self = {| config_base_model := model;
                                 config_guardrails := g |} /\
                stats_file self = path /\
                fallback self = FALLBACK
            | Raise _ => openai_api_key w' = openai_api_key w
            end) as Tail.
  { intros text w1 r0 w0 F K.
    destruct (Text.truthy (Text.strip text)).
    - destruct (_load_stats path w1) as [[st | e] w2] eqn:L;
        apply load_stats_world in L; subst w2;
        intros E; injection E as <- <-; simpl; auto 10.
    - intros E; injection E as <- <-. auto. }
  destruct inp as [| [| c s] |].
  - rewrite init_eq by discriminate. simpl resolve_input.
    rewrite get_input_eq.
    destruct (stdin w) as [| line rest] eqn:S.
    + intros E; injection E as <- <-. simpl. repeat split; try discriminate.
      eexists. split; reflexivity.
    + intros E. apply Tail in E as (F & T & _ & R); try reflexivity.
      split; [ exact F | ]. split; [ | split; [ exact R | discriminate ] ].
      rewrite T. simpl. eexists. split; reflexivity.
  - rewrite init_eq by discriminate. simpl resolve_input.
    rewrite get_input_eq.
    destruct (stdin w) as [| line rest] eqn:S.
    + intros E; injection E as <- <-. simpl. repeat split; try discriminate.
      eexists. split; reflexivity.
    + intros E. apply Tail in E as (F & T & _ & R); try reflexivity.
      split; [ exact F | ]. split; [ | split; [ exact R | discriminate ] ].
      rewrite T. simpl. eexists. split; reflexivity.
  - rewrite init_eq by discriminate. simpl resolve_input. unfold ret.
    intros E. apply Tail in E as (F & T & S & R); try reflexivity.
    split; [ exact F | ]. split; [ | split; [ exact R | auto ] ].
    rewrite T. exists []. split; [ now rewrite app_nil_r | reflexivity ].
  - intros E; injection E as <- <-.
    repeat split; try discriminate.
    exists []. split; [ now rewrite app_nil_r | reflexivity ].
Qed.

Lemma init_effects_witness :
  files quiet_world = files quiet_world /\
  (exists l, trace quiet_world = (trace quiet_world ++ l)%list /\ sites l = []) /\
  (openai_api_key quiet_world = None /\
   guardrails fresh = true /\
   config fresh = {| config_base_model := "gpt-3.5-turbo";
                     config_guardrails := true |} /\
   stats_file fresh = "bias_stats.json" /\
   fallback fresh = FALLBACK) /\
  (forall c s,
     StrInput "How many people live in the world?" = StrInput (String c s) ->
     trace quiet_world = trace quiet_world /\ stdin quiet_world = stdin quiet_world).
Proof.
  apply (init_effects (StrInput "How many people live in the world?") true
           "gpt-3.5-turbo" "bias_stats.json" None quiet_world
           (Ok fresh) quiet_world).
  reflexivity.
Defined.

(** ** Saving, loading and the counts *)

(** X13. Whatever the counters hold, a statistics file that
    [_save_stats] has written is accepted by [_load_stats].  The counters
    loaded from it hold the four saved values under the strings ["true"]
    and ["false"], and read zero under [True] and [False]. *)
Theorem save_then_load_keys (self : BiasCheck) (w : World) :
  write_error w (stats_file self) = None ->
  exists st w',
    save_then_load self w = (Ok st, w') /\
    Counter.get (fallbacks st) (KStr "true")
    = Counter.get (fallbacks (stats self)) (KBool true) /\
    Counter.get (fallbacks st) (KStr "false")
    = Counter.get (fallbacks (stats self)) (KBool false) /\
    Counter.get (bias st) (KStr "true")
    = Counter.get (bias (stats self)) (KBool true) /\
    Counter.get (bias st) (KStr "false")
    = Counter.get (bias (stats self)) (KBool false) /\
    written_counts st = [JInt 0; JInt 0; JInt 0; JInt 0].
Proof.
  intros H. destruct (save_then_load_eq self w H) as (st & w' & E & F & B & Z).
  exists st, w'. split; [ exact E | ].
  rewrite F, B. unfold Counter.of_members. cbn [fold_left fst snd].
  repeat split; try exact Z;
    first [ apply get_insert_eq
          | rewrite get_insert_ne by discriminate; apply get_insert_eq ].
Qed.

Lemma save_then_load_keys_witness :
  exists st w',
    save_then_load once quiet_world = (Ok st, w') /\
    Counter.get (fallbacks st) (KStr "true")
    = Counter.get (fallbacks (stats once)) (KBool true) /\
    Counter.get (fallbacks st) (KStr "false")
    = Counter.get (fallbacks (stats once)) (KBool false) /\
    Counter.get (bias st) (KStr "true")
    = Counter.get (bias (stats once)) (KBool true) /\
    Counter.get (bias st) (KStr "false")
    = Counter.get (bias (stats once)) (KBool false) /\
    written_counts st = [JInt 0; JInt 0; JInt 0; JInt 0].
Proof.
  apply (save_then_load_keys once quiet_world).
  reflexivity.
Defined.

Lemma natural_valued_count c b : natural_valued c -> 0 <= count c b.
Proof.
  intros H. unfold count, Counter.get.
  destruct (c !! KBool b) as [v |] eqn:E; simpl; [ | lia ].
  destruct (H _ _ E) as (z & -> & P). exact P.
Qed.

Lemma incr_natural_valued c k c' :
  natural_valued c -> Counter.incr c k = Ok c' -> natural_valued c'.
Proof.
  unfold Counter.incr, Counter.get. intros H E.
  destruct (c !! k) as [v |] eqn:L; simpl in E.
  - destruct (H _ _ L) as (z & -> & P). simpl in E. injection E as <-.
    intros k' v' L'. destruct (decide (k = k')) as [-> | N].
    + rewrite lookup_insert_eq in L'. injection L' as <-.
      eexists. split; [ reflexivity | lia ].
    + rewrite lookup_insert_ne in L' by assumption. eauto.
  - injection E as <-.
    intros k' v' L'. destruct (decide (k = k')) as [-> | N].
    + rewrite lookup_insert_eq in L'. injection L' as <-.
      eexists. split; [ reflexivity | lia ].
    + rewrite lookup_insert_ne in L' by assumption. eauto.
Qed.

Lemma count_elements_natural_valued xs : forall c c',
  natural_valued c -> Counter.count_elements c xs = Ok c' -> natural_valued c'.
Proof.
  induction xs as [| x xs IH]; intros c c' H E; simpl in E.
  - injection E as <-. exact H.
  - destruct (Counter.hash x) as [k | e]; [ | discriminate ].
    destruct (Counter.incr c k) as [c1 | e] eqn:I; [ | discriminate ].
    eapply IH; [ | exact E ]. eapply incr_natural_valued; eauto.
Qed.

Lemma natural_valued_empty : natural_valued ∅.
Proof. intros k v L. rewrite lookup_empty in L. discriminate. Qed.

Lemma of_json_nonneg v c b : Counter.of_json v = Ok c -> 0 <= count c b.
Proof.
  destruct v; simpl; intros E; try discriminate.
  - injection E as <-. apply natural_valued_count, natural_valued_empty.
  - apply natural_valued_count.
    eapply count_elements_natural_valued; [ apply natural_valued_empty | exact E ].
  - apply natural_valued_count.
    eapply count_elements_natural_valued; [ apply natural_valued_empty | exact E ].
  - injection E as <-. unfold count. rewrite of_members_get. lia.
Qed.

Lemma counter_of_member_nonneg name kvs c b :
  counter_of_member name kvs = Ok c -> 0 <= count c b.
Proof.
  unfold counter_of_member. destruct (members_get name kvs).
  - apply of_json_nonneg.
  - intros E. injection E as <-. rewrite count_zeros. lia.
Qed.

Lemma load_stats_nonneg path w st w' :
  _load_stats path w = (Ok st, w') -> counts_nonneg st.
Proof.
  rewrite load_stats_cases.
  destruct (files w !! path) as [[d |] |].
  - destruct d; try discriminate.
    destruct (counter_of_member "fallbacks" members) as [fb | e] eqn:E1;
      [ | discriminate ].
    destruct (counter_of_member "bias" members) as [bs | e] eqn:E2;
      [ | discriminate ].
    intros E. injection E as <- _. intros b. simpl.
    split; eapply counter_of_member_nonneg; eauto.
  - discriminate.
  - intros E. injection E as <- _. intros b. simpl.
    rewrite !count_zeros. lia.
Qed.

(** X14. No count is ever negative: not in an instance as constructed,
    whatever the statistics file held, and not after any number of
    runs. *)
Theorem counts_never_negative (self : BiasCheck) :
  constructed self -> counts_nonneg (stats self).
Proof.
  induction 1 as [inp g model path key w self w' E | self w r p' C IH E].
  - assert (inp = OtherInput \/ inp <> OtherInput) as [-> | N]
      by (destruct inp; auto; right; discriminate);
      [ discriminate | ].
    rewrite (init_eq _ _ _ _ _ _ N) in E.
    destruct (resolve_input inp w) as [[text | e] w1]; [ | discriminate ].
    destruct (Text.truthy (Text.strip text)); [ | discriminate ].
    destruct (_load_stats path w1) as [[st | e] w2] eqn:L; [ | discriminate ].
    injection E as <- _. simpl. eapply load_stats_nonneg, L.
  - destruct (run_counts _ _ _ _ (constructed_wf _ C) E) as [(k & K1 & K2) B].
    intros b. destruct (IH b) as [F0 B0]. split.
    + destruct (IH k) as [Fk _]. destruct (IH (negb k)) as [Fn _].
      destruct k, b; simpl negb in *; lia.
    + specialize (B b). lia.
Qed.

Lemma counts_never_negative_witness : counts_nonneg (stats fresh).
Proof.
  apply (counts_never_negative fresh).
  apply (constructed_init (StrInput "How many people live in the world?") true
           "gpt-3.5-turbo" "bias_stats.json" None quiet_world fresh quiet_world).
  reflexivity.
Defined.

(** ** The script *)

Lemma run_outcome_returns self w :
  exists r p', run_outcome self w = (Ok r, p') /\ stdin (world p') = stdin w.
Proof.
  run_cases self w; eexists _, _; (split; [ reflexivity | ]);
    world_norm; reflexivity.
Qed.

(** X11. The script never reads the console.  It fails only when the
    statistics file cannot be loaded, with the error of the load and
    before any request or any change to the world; otherwise it builds an
    instance for [prompt_3] with guardrails on, sets the library-wide
    credential to the one of [config], runs the check once without
    raising, and prints the result and the two counters as that run left
    them. *)
Theorem main_outcome (w : World) :
  match _load_stats "bias_stats.json" w with
  | (Raise e, _) => main w = (Raise e, w)
  | (Ok st, _) =>
      let checker :=
        {| user_input := prompt_3; guardrails := true; fallback := FALLBACK;
           config := {| config_base_model := "gpt-3.5-turbo";
                        config_guardrails := true |};
           stats_file := "bias_stats.json"; stats := st |} in
      let w0 := set_openai_api_key (Some (config_api_key w)) w in
      exists result p',
        run {| this := checker; world := w0 |} = (Ok result, p') /\
        main w = (Ok (report result (this p')), world p') /\
        stdin (world p') = stdin w
  end.
Proof.
  assert (forall st,
            _load_stats "bias_stats.json" w = (Ok st, w) ->
            wf {| user_input := prompt_3; guardrails := true; fallback := FALLBACK;
                  config := {| config_base_model := "gpt-3.5-turbo";
                               config_guardrails := true |};
                  stats_file := "bias_stats.json"; stats := st |}) as W.
  { intros st L. destruct (load_stats_numeric _ _ _ _ L). split; simpl; auto. }
  destruct (_load_stats "bias_stats.json" w) as [[st | e] w2] eqn:L;
    pose proof (load_stats_world _ _ _ _ L) as ->;
    unfold main; unfold bind at 1; unfold gets at 1; unfold bind at 1;
    rewrite init_eq by discriminate;
    change (resolve_input (StrInput prompt_3) w) with (Ok prompt_3, w);
    cbv beta iota;
    replace (Text.truthy (Text.strip prompt_3)) with true by reflexivity;
    rewrite L; [ | reflexivity ].
  cbv zeta. unfold bind at 1, call_on.
  rewrite (run_eq _ _ (W st eq_refl)).
  match goal with |- context [run_outcome ?c ?v] =>
    destruct (run_outcome_returns c v) as (r & p' & -> & S) end.
  exists r, p'. split; [ reflexivity | ]. split; [ reflexivity | exact S ].
Qed.

Example main_without_file :
  exists w',
    main quiet_world
    = (Ok (report "No"
             {| user_input := prompt_3; guardrails := true; fallback := FALLBACK;
                config := {| config_base_model := "gpt-3.5-turbo";
                             config_guardrails := true |};
                stats_file := "bias_stats.json";
                stats := {| fallbacks := <[KBool false := JInt 1]> Counter.zeros;
                            bias := <[KBool false := JInt 1]> Counter.zeros |} |}),
       w') /\
    openai_api_key w' = Some "sk-test" /\
    sites (trace w') = [PromptCheck; Generation; OutputCheck].
Proof. eexists. split; [ vm_compute; reflexivity | split; reflexivity ]. Qed.

Example main_with_garbled_file :
  main garbled_world = (Raise (JSONDecodeError "Expecting value"), garbled_world).
Proof. reflexivity. Qed.

(** ** Checked outputs and passed prompts *)

Lemma run_delta self w r p' :
  wf self ->
  run {| this := self; world := w |} = (r, p') ->
  0 <= bias_total (this p') - bias_total self
    <= count (fallbacks (stats (this p'))) false
       - count (fallbacks (stats self)) false /\
  count (fallbacks (stats (this p'))) false
  - count (fallbacks (stats self)) false <= 1.
Proof.
  intros W. rewrite (run_eq _ _ W).
  run_cases self w; intros E; injection E as _ <-; unfold bias_total;
    cbn [this stats bump_bias bump_fallbacks set_stats bias fallbacks];
    rewrite ?count_insert_eq, ?count_insert_ne by discriminate; lia.
Qed.

(** X16. Over any number of runs of one instance, the output checks
    counted never exceed the prompts that passed: the two bias counts
    together grow by at most as much as the fallback count for [False],
    which grows by at most one a run. *)
Theorem checks_bounded_by_passes (n : nat) (self self' : BiasCheck) :
  constructed self ->
  after_runs n self self' ->
  0 <= bias_total self' - bias_total self
    <= count (fallbacks (stats self')) false
       - count (fallbacks (stats self)) false /\
  count (fallbacks (stats self')) false - count (fallbacks (stats self)) false
  <= Z.of_nat n.
Proof.
  intros C A. pose proof (constructed_wf _ C) as W.
  induction A as [self | n self self1 w r p' A IH E].
  - lia.
  - destruct (after_runs_counts _ _ _ W A) as (W1 & _).
    pose proof (run_delta _ _ _ _ W1 E). specialize (IH C W). lia.
Qed.

Lemma checks_bounded_by_passes_witness :
  0 <= bias_total fresh_after_run - bias_total fresh
    <= count (fallbacks (stats fresh_after_run)) false
       - count (fallbacks (stats fresh)) false /\
  count (fallbacks (stats fresh_after_run)) false
  - count (fallbacks (stats fresh)) false
  <= Z.of_nat 1.
Proof.
  apply (checks_bounded_by_passes 1 fresh fresh_after_run).
  - apply (constructed_init (StrInput "How many people live in the world?") true
             "gpt-3.5-turbo" "bias_stats.json" None quiet_world fresh quiet_world).
    reflexivity.
  - apply (after_one_more 0 fresh fresh quiet_world
             (fst (run {| this := fresh; world := quiet_world |}))
             (snd (run {| this := fresh; world := quiet_world |}))).
    + apply after_no_run.
    + vm_compute. reflexivity.
Defined.
